(** * Voxel Collider Generator: a shallow embedding of
      [voxel_collider_generator.py] and the properties of its voxel grid,
      classification loop and primitive emission.

    Conventions of the embedding.
    - Python exceptions are values of [PyError]; a computation that can raise
      returns [Result A], and [execute] returns an [Outcome] that tells
      whether the operator returned a status set or was left by an
      exception, together with the host state reached at that point.
    - Floating-point arithmetic is not fixed: the numbers are the elements
      of a type [float] and the operations of Python floats and of
      [mathutils] are the operations of a structure [Numeric], about which
      nothing is assumed (no associativity, no exactness, no sign rule).
      What is proved holds for every such structure, among them the
      arithmetic of the host.  The host's own naming of objects and the
      object [primitive_cube_add] builds are the operations of a second
      structure, [Blender].
    - For evaluation on concrete scenes there is one instance, [exact_numeric]
      and [exact_blender], with rational numbers.  On the scenes used (all
      coordinates and voxel sizes small dyadic numbers) the operations the
      outcome of a run depends on are exact in floating point as well; the
      normalised direction, which is not, is computed and never read, since
      the expression of line 116 raises before it gets to it.
    - A numpy array of shape [(nx, ny, nz)] is its shape together with its
      flat row-major buffer.
    - The host (bpy) is a record of the pieces of state the operator reads
      and writes: the object store, the collections, the active object and
      collection, the reports. *)

From Stdlib Require Import QArith Qround Ascii String.
From stdpp Require Import base list vector strings pretty gmap sorting.

Local Open Scope Z_scope.

(** ** Exceptions *)

Inductive PyError :=
  | AttributeError
  | RuntimeError
  | ValueError
  | ZeroDivisionError
  | OverflowError.

(** The value of an expression that can raise. *)
Definition Result (A : Type) : Type := PyError + A.

Definition result_bind {A B} (r : Result A) (k : A → Result B) : Result B :=
  match r with
  | inl e => inl e
  | inr a => k a
  end.

Notation "'let?' x := r 'in' k" := (result_bind r (λ x, k))
  (at level 10, x pattern, r at level 100, k at level 200).

(** ** Numbers, vectors and matrices *)

Definition triple (A : Type) : Type := A * A * A.

(** An index tuple of a three-dimensional array. *)
Definition Index : Type := Z * Z * Z.

(** Python floats and the vectors and matrices of [mathutils]. *)
Class Numeric := {
  float : Type;
  Matrix : Type;
  (** [float(n)] for an int [n], as in [Vector((1, ...))] and [Vector(idx)] *)
  float_of_int : Z → float;
  (** the float a decimal literal stands for *)
  float_lit : Q → float;
  (** [x < y] *)
  float_ltb : float → float → bool;
  (** [x / y] on Python floats; raises [ZeroDivisionError] *)
  float_div : float → float → Result float;
  (** [math.ceil(x)]; raises on a number that is not finite *)
  ceil : float → Result Z;
  (** [int(x)]; raises on a number that is not finite *)
  int : float → Result Z;
  (** [u + v], [u - v], [u * s], [u / s], [u.dot(v)], [u.normalized()] *)
  Vector_add : triple float → triple float → triple float;
  Vector_sub : triple float → triple float → triple float;
  Vector_mul : triple float → float → triple float;
  Vector_div : triple float → float → Result (triple float);
  Vector_dot : triple float → triple float → float;
  Vector_normalized : triple float → triple float;
  (** [m @ v] *)
  Matrix_mul : Matrix → triple float → triple float
}.

(** [class VCG_Props(PropertyGroup)] *)
Module VCG_Props.
Record t (float : Type) := mk {
  voxel_size : float;
  use_boxes : bool;
  use_spheres : bool;
  use_capsules : bool;
  merge_output : bool;
  voxel_resolution : Z
}.
Arguments mk {float}.
Arguments voxel_size {float}.
Arguments use_boxes {float}.
Arguments use_spheres {float}.
Arguments use_capsules {float}.
Arguments merge_output {float}.
Arguments voxel_resolution {float}.

Definition set_voxel_resolution {float} (r : Z) (p : t float) : t float :=
  {| voxel_size := voxel_size p; use_boxes := use_boxes p;
     use_spheres := use_spheres p; use_capsules := use_capsules p;
     merge_output := merge_output p; voxel_resolution := r |}.

Definition set_merge_output {float} (b : bool) (p : t float) : t float :=
  {| voxel_size := voxel_size p; use_boxes := use_boxes p;
     use_spheres := use_spheres p; use_capsules := use_capsules p;
     merge_output := b; voxel_resolution := voxel_resolution p |}.


End VCG_Props.

(** ** Arrays *)

(** Number of cells of an array of the given shape. *)
Definition shape_cells (shape : Index) : nat :=
  let '(nx, ny, nz) := shape in
  (Z.to_nat nx * Z.to_nat ny * Z.to_nat nz)%nat.

(** [np.zeros(shape, dtype=bool)]; a negative extent raises [ValueError]. *)
Definition np_zeros (shape : Index) : Result (list bool) :=
  let '(nx, ny, nz) := shape in
  if (nx <? 0) || (ny <? 0) || (nz <? 0) then inl ValueError
  else inr (replicate (shape_cells shape) false).

(** [all(0 <= idx < dim for idx, dim in zip(index, self.grid_size))] *)
Definition in_range (shape : Index) (index : Index) : bool :=
  let '(nx, ny, nz) := shape in
  let '(i, j, k) := index in
  ((0 <=? i) && (i <? nx)) && ((0 <=? j) && (j <? ny)) && ((0 <=? k) && (k <? nz)).

(** Offset of cell [index] in the row-major buffer of an array of shape
    [shape]. *)
Definition ravel (shape : Index) (index : Index) : nat :=
  let '(_, ny, nz) := shape in
  let '(i, j, k) := index in
  Z.to_nat ((i * ny + j) * nz + k).

(** Index of the cell at offset [p]. *)
Definition unravel (shape : Index) (p : nat) : Index :=
  let '(_, ny, nz) := shape in
  let z := Z.of_nat p in
  (z / (ny * nz), (z / nz) mod ny, z mod nz).

(** [a[index]] for an index already checked to be in range; the buffer of
    a well-formed array always has the cell. *)
Definition getitem (shape : Index) (buf : list bool) (index : Index) : bool :=
  default false (buf !! ravel shape index).

(** [a[index] = True] *)
Definition setitem_true (shape : Index) (buf : list bool) (index : Index) : list bool :=
  <[ravel shape index := true]> buf.

(** [np.ndindex(shape)]: every index of the shape, row-major. *)
Definition ndindex (shape : Index) : list Index :=
  unravel shape <$> seq 0 (shape_cells shape).

(** [np.ndenumerate] reads the live buffer cell by cell.  A generator of
    [iter_empty] suspended before offset [p] resumes by skipping the cells
    that hold [True] and stops at the first one that does not, yielding its
    index together with the offset to resume from; [None] is
    [StopIteration].  [fuel] bounds the cells still to be looked at. *)
Fixpoint iter_empty_scan (shape : Index) (buf : list bool) (p fuel : nat)
  : option (Index * nat) :=
  match fuel with
  | O => None
  | S fuel' =>
      match buf !! p with
      | None => None
      | Some false => Some (unravel shape p, S p)
      | Some true => iter_empty_scan shape buf (S p) fuel'
      end
  end.

(** Offsets, among the [n] from [p] on, of the cells that hold [False]. *)
Definition empty_offsets (buf : list bool) (p n : nat) : list nat :=
  filter (λ q, buf !! q = Some false) (seq p n).

(** Row-major (lexicographic) order on indices. *)
Definition index_lt (a b : Index) : Prop :=
  let '(i, j, k) := a in
  let '(i', j', k') := b in
  i < i' \/ (i = i' /\ (j < j' \/ (j = j' /\ k < k'))).

(** Indices of the enumerated items whose cell holds [True]. *)
Definition set_items (items : list (Index * bool)) : list Index :=
  (filter (λ item : Index * bool, item.2 = true) items).*1.

(** [count % 2 == 1] *)
Definition odd_count (count : nat) : bool := (count mod 2 =? 1)%nat.

(** [f"VCG_Cube_{idx}"], [idx] a tuple of three ints *)
Definition cube_name (idx : Index) : string :=
  let '(i, j, k) := idx in
  "VCG_Cube_(" +:+ pretty i +:+ ", " +:+ pretty j +:+ ", " +:+ pretty k +:+ ")".

Definition VCG_Colliders : string := "VCG_Colliders".

(** Objects live in the store [bpy.data.objects]; everything else refers to
    them by their position in it, so that a rename is seen through every
    reference. *)
Definition ObjId : Type := nat.

Section Model.
Context {numeric : Numeric}.

(** [mathutils.Vector] with three components. *)
Definition Vec3 : Type := triple float.

(** [Vector(idx)] *)
Definition Vector_of_index (idx : Index) : Vec3 :=
  let '(i, j, k) := idx in (float_of_int i, float_of_int j, float_of_int k).

(** ** class VoxelGrid *)

Record VoxelGrid := mkVoxelGrid {
  min_corner : Vec3;
  max_corner : Vec3;
  voxel_size : float;
  dims : Vec3;
  grid_size : Index;
  grid : list bool
}.

(** [ceil(self.dims[i] / voxel_size)] *)
Definition cells_along (d vsize : float) : Result Z :=
  let? q := float_div d vsize in ceil q.

(** [VoxelGrid.__init__] *)
Definition VoxelGrid_init (min_c max_c : Vec3) (vsize : float) : Result VoxelGrid :=
  let d := Vector_sub max_c min_c in
  let '(dx, dy, dz) := d in
  let? nx := cells_along dx vsize in
  let? ny := cells_along dy vsize in
  let? nz := cells_along dz vsize in
  let gs := (nx, ny, nz) in
  let? buf := np_zeros gs in
  inr {| min_corner := min_c; max_corner := max_c; voxel_size := vsize;
         dims := d; grid_size := gs; grid := buf |}.

(** [VoxelGrid.get_index] *)
Definition get_index (g : VoxelGrid) (location : Vec3) : Result Index :=
  let? relative := Vector_div (Vector_sub location (min_corner g)) (voxel_size g) in
  let '(x, y, z) := relative in
  let? i := int x in
  let? j := int y in
  let? k := int z in
  inr (i, j, k).

Definition set_grid (g : VoxelGrid) (buf : list bool) : VoxelGrid :=
  {| min_corner := min_corner g; max_corner := max_corner g;
     voxel_size := voxel_size g; dims := dims g;
     grid_size := grid_size g; grid := buf |}.

(** [VoxelGrid.mark] *)
Definition mark (g : VoxelGrid) (index : Index) : VoxelGrid :=
  if in_range (grid_size g) index
  then set_grid g (setitem_true (grid_size g) (grid g) index)
  else g.

(** [VoxelGrid.is_marked] *)
Definition is_marked (g : VoxelGrid) (index : Index) : bool :=
  if in_range (grid_size g) index
  then getitem (grid_size g) (grid g) index
  else true.

(** The buffer has exactly one cell per index of the shape. *)
Definition wf_grid (g : VoxelGrid) : Prop :=
  length (grid g) = shape_cells (grid_size g).

(** ** Enumerating the grid *)

(** [next(gen)] for a generator of [g.iter_empty()] suspended at [p]. *)
Definition iter_empty_next (g : VoxelGrid) (p : nat) : option (Index * nat) :=
  iter_empty_scan (grid_size g) (grid g) p (length (grid g) - p).

(** Running a generator to exhaustion while nothing mutates the grid. *)
Fixpoint iter_empty_from (g : VoxelGrid) (p fuel : nat) : list Index :=
  match fuel with
  | O => []
  | S fuel' =>
      match iter_empty_next g p with
      | None => []
      | Some (idx, p') => idx :: iter_empty_from g p' fuel'
      end
  end.

(** [list(g.iter_empty())]: a fresh generator starts at offset 0; every
    resumption advances the offset, so [length (grid g)] resumptions and the
    final [StopIteration] fit in the fuel. *)
Definition iter_empty (g : VoxelGrid) : list Index :=
  iter_empty_from g 0 (S (length (grid g))).

(** [list(np.ndenumerate(self.grid))] *)
Definition ndenumerate (g : VoxelGrid) : list (Index * bool) :=
  zip (ndindex (grid_size g)) (grid g).

(** Indices of the cells that hold [True], in enumeration order. *)
Definition filled_indices (g : VoxelGrid) : list Index :=
  set_items (ndenumerate g).

(** ** The host: meshes, objects, collections *)

(** [bpy.types.Mesh]: vertex coordinates, edges and polygons as tuples of
    vertex numbers. *)
Record Mesh := mkMesh {
  vertices : list Vec3;
  edges : list (nat * nat);
  polygons : list (list nat)
}.

(** [bpy.types.Object]; [bound_box] is the host's array of the 8 corners of
    the local bounding box. *)
Record Object := mkObject {
  name : string;
  type : string;
  data : Mesh;
  matrix_world : Matrix;
  bound_box : vec Vec3 8
}.

Definition rename (n : string) (o : Object) : Object :=
  {| name := n; type := type o; data := data o;
     matrix_world := matrix_world o; bound_box := bound_box o |}.

(** What the host decides on its own when the operator creates and names an
    object. *)
Class Blender := {
  (** the name an object gets when [n] is asked for and the names [taken]
      are in use by other objects (the host appends a numeric suffix to a
      name that is taken) *)
  unique_name : list string → string → string;
  (** the object [bpy.ops.mesh.primitive_cube_add(size=s, location=l)]
      builds, before it is named *)
  primitive_cube : float → Vec3 → Object
}.

Context {blender : Blender}.

(** The declared defaults of the property group. *)
Definition VCG_Props_default : VCG_Props.t float :=
  {| VCG_Props.voxel_size := float_lit (1 # 2); VCG_Props.use_boxes := true;
     VCG_Props.use_spheres := true; VCG_Props.use_capsules := false;
     VCG_Props.merge_output := false; VCG_Props.voxel_resolution := 32 |}.

(** What the operator can observe and change of [bpy] and [context]. *)
Record Context := mkContext {
  vcg_props : VCG_Props.t float;           (* context.scene.vcg_props *)
  active_object : option ObjId;            (* context.active_object *)
  mode : string;                           (* set by bpy.ops.object.mode_set *)
  data_objects : list Object;              (* bpy.data.objects *)
  data_collections : gmap string (list ObjId);
                                           (* bpy.data.collections, each with its .objects *)
  scene_children : list string;            (* context.scene.collection.children *)
  scene_objects : list ObjId;              (* context.scene.collection.objects *)
  collection : option string;              (* context.collection, the collection new
                                              objects are linked to; None is the
                                              scene's root collection *)
  reports : list (string * string)         (* self.report, oldest first *)
}.

Definition set_active_object (a : option ObjId) (c : Context) : Context :=
  {| vcg_props := vcg_props c; active_object := a; mode := mode c;
     data_objects := data_objects c; data_collections := data_collections c;
     scene_children := scene_children c; scene_objects := scene_objects c;
     collection := collection c; reports := reports c |}.
Definition set_mode (m : string) (c : Context) : Context :=
  {| vcg_props := vcg_props c; active_object := active_object c; mode := m;
     data_objects := data_objects c; data_collections := data_collections c;
     scene_children := scene_children c; scene_objects := scene_objects c;
     collection := collection c; reports := reports c |}.
Definition set_data_objects (o : list Object) (c : Context) : Context :=
  {| vcg_props := vcg_props c; active_object := active_object c; mode := mode c;
     data_objects := o; data_collections := data_collections c;
     scene_children := scene_children c; scene_objects := scene_objects c;
     collection := collection c; reports := reports c |}.
Definition set_data_collections (m : gmap string (list ObjId)) (c : Context) : Context :=
  {| vcg_props := vcg_props c; active_object := active_object c; mode := mode c;
     data_objects := data_objects c; data_collections := m;
     scene_children := scene_children c; scene_objects := scene_objects c;
     collection := collection c; reports := reports c |}.
Definition set_scene_children (l : list string) (c : Context) : Context :=
  {| vcg_props := vcg_props c; active_object := active_object c; mode := mode c;
     data_objects := data_objects c; data_collections := data_collections c;
     scene_children := l; scene_objects := scene_objects c;
     collection := collection c; reports := reports c |}.
Definition set_scene_objects (l : list ObjId) (c : Context) : Context :=
  {| vcg_props := vcg_props c; active_object := active_object c; mode := mode c;
     data_objects := data_objects c; data_collections := data_collections c;
     scene_children := scene_children c; scene_objects := l;
     collection := collection c; reports := reports c |}.
Definition set_reports (r : list (string * string)) (c : Context) : Context :=
  {| vcg_props := vcg_props c; active_object := active_object c; mode := mode c;
     data_objects := data_objects c; data_collections := data_collections c;
     scene_children := scene_children c; scene_objects := scene_objects c;
     collection := collection c; reports := r |}.
Definition set_vcg_props (p : VCG_Props.t float) (c : Context) : Context :=
  {| vcg_props := p; active_object := active_object c; mode := mode c;
     data_objects := data_objects c; data_collections := data_collections c;
     scene_children := scene_children c; scene_objects := scene_objects c;
     collection := collection c; reports := reports c |}.

(** A host call: it changes the host state and returns or raises.  The
    state it leaves is kept when it raises. *)
Definition Op (A : Type) : Type := Context → Context * Result A.

Definition op_ret {A} (a : A) : Op A := λ c, (c, inr a).
Definition op_raise {A} (e : PyError) : Op A := λ c, (c, inl e).
Definition op_bind {A B} (m : Op A) (k : A → Op B) : Op B := λ c,
  match m c with
  | (c', inr a) => k a c'
  | (c', inl e) => (c', inl e)
  end.

Notation "'let!' x := m 'in' k" := (op_bind m (λ x, k))
  (at level 10, x pattern, m at level 100, k at level 200).

(** [self.report({level}, msg)] *)
Definition report (level msg : string) (c : Context) : Context :=
  set_reports (reports c ++ [(level, msg)]) c.

(** [bpy.ops.object.mode_set(mode=m)] *)
Definition mode_set (m : string) (c : Context) : Context := set_mode m c.

(** The object [context.active_object] refers to, if any. *)
Definition active_obj (c : Context) : option Object :=
  active_object c ≫= λ i, data_objects c !! i.

(** Linking the object number [i] to [context.collection]. *)
Definition link_to_active_collection (i : ObjId) (c : Context) : Context :=
  match collection c with
  | None => set_scene_objects (scene_objects c ++ [i]) c
  | Some n => set_data_collections (alter (λ l, l ++ [i]) n (data_collections c)) c
  end.

(** [bpy.ops.mesh.primitive_cube_add(size=size, location=location)]: the new
    object gets the first free name on ["Cube"], enters the store, is linked
    to the active collection and becomes the active object. *)
Definition primitive_cube_add (size : float) (location : Vec3) : Op unit := λ c,
  let i := length (data_objects c) in
  let n := unique_name (name <$> data_objects c) "Cube" in
  let cube := rename n (primitive_cube size location) in
  (set_active_object (Some i)
     (link_to_active_collection i
        (set_data_objects (data_objects c ++ [cube]) c)),
   inr tt).

(** [obj.name = n] for the object number [i]: it gets the first free name
    on [n] among the names of the other objects. *)
Definition set_name (i : ObjId) (n : string) : Op unit := λ c,
  let taken := name <$> delete i (data_objects c) in
  (set_data_objects (alter (rename (unique_name taken n)) i (data_objects c)) c,
   inr tt).

(** [bpy.data.collections.new(n)], called when no collection has the name *)
Definition collections_new (n : string) (c : Context) : Context :=
  set_data_collections (<[n := []]> (data_collections c)) c.

(** [context.scene.collection.children.link(coll)] for a collection just
    made *)
Definition scene_children_link (n : string) (c : Context) : Context :=
  set_scene_children (scene_children c ++ [n]) c.

(** [coll.objects.link(obj)] for the collection named [n]: raises
    [RuntimeError] when the object is in the collection already. *)
Definition collection_objects_link (n : string) (i : ObjId) : Op unit := λ c,
  if decide (i ∈ default [] (data_collections c !! n)) then (c, inl RuntimeError)
  else (set_data_collections (alter (λ l, l ++ [i]) n (data_collections c)) c,
        inr tt).

(** [context.scene.collection.objects.unlink(obj)]: raises [RuntimeError]
    when the object is not in the root collection of the scene. *)
Definition scene_objects_unlink (i : ObjId) : Op unit := λ c,
  if decide (i ∈ scene_objects c)
  then (set_scene_objects (filter (λ j, j ≠ i) (scene_objects c)) c, inr tt)
  else (c, inl RuntimeError).

(** ** BMesh *)

Record BMesh := mkBMesh {
  bm_verts : list Vec3;
  bm_edge_verts : list (nat * nat);
  bm_face_verts : list (list nat)
}.

(** [bm = bmesh.new(); bm.from_mesh(mesh)] *)
Definition from_mesh (m : Mesh) : BMesh :=
  {| bm_verts := vertices m; bm_edge_verts := edges m; bm_face_verts := polygons m |}.

(** [bm.transform(matrix)] *)
Definition transform (m : Matrix) (bm : BMesh) : BMesh :=
  {| bm_verts := Matrix_mul m <$> bm_verts bm;
     bm_edge_verts := bm_edge_verts bm; bm_face_verts := bm_face_verts bm |}.

(** A [BMEdge], by the coordinates of its two vertices. *)
Definition BMEdge : Type := Vec3 * Vec3.

Definition resolve (vs : list Vec3) (e : nat * nat) : option BMEdge :=
  a ← vs !! e.1; b ← vs !! e.2; Some (a, b).

(** [bm.edges].  The host keeps every edge of a mesh on two existing
    vertices; an entry that named a missing vertex would have no edge. *)
Definition bm_edges (bm : BMesh) : list BMEdge :=
  omap (resolve (bm_verts bm)) (bm_edge_verts bm).

(** [edge.calc_center_median] for [edge] an element of [bm.edges].  The
    method belongs to [BMFace]; a [BMEdge] has no attribute of this name,
    and looking it up raises [AttributeError]. *)
Definition calc_center_median (edge : BMEdge) : Result Vec3 :=
  inl AttributeError.

(** ** The operator [VCG_OT_Generate.execute] *)

(** [Vector((1, 0.1, 0.3)).normalized()] *)
Definition direction : Vec3 :=
  Vector_normalized (float_of_int 1, float_lit (1 # 10), float_lit (3 # 10)).

(** [min_corner + Vector(idx) * voxel_size + Vector((0.5, 0.5, 0.5)) * voxel_size] *)
Definition voxel_center (min_c : Vec3) (vsize : float) (idx : Index) : Vec3 :=
  Vector_add (Vector_add min_c (Vector_mul (Vector_of_index idx) vsize))
    (Vector_mul (float_lit (1 # 2), float_lit (1 # 2), float_lit (1 # 2)) vsize).

(** [hit = edge.calc_center_median().dot(direction - center)]: the receiver
    of [dot] is evaluated first. *)
Definition hit (center : Vec3) (edge : BMEdge) : Result float :=
  let? median := calc_center_median edge in
  inr (Vector_dot median (Vector_sub direction center)).

(** The loop over [bm.edges] of lines 115-118, entered with [count]. *)
Fixpoint count_loop (es : list BMEdge) (center : Vec3) (count : nat) : Result nat :=
  match es with
  | [] => inr count
  | edge :: es' =>
      let? h := hit center edge in
      count_loop es' center (if float_ltb (float_of_int 0) h then S count else count)
  end.

(** [count] after the loop over [bm.edges]. *)
Definition count_hits (es : list BMEdge) (center : Vec3) : Result nat :=
  count_loop es center 0.

(** The test that decides whether voxel [idx] is marked. *)
Definition classify (es : list BMEdge) (min_c : Vec3) (vsize : float) (idx : Index)
  : Result bool :=
  let? count := count_hits es (voxel_center min_c vsize idx) in
  inr (odd_count count).

(** The body of the loop of lines 110-120 on one yielded index. *)
Definition classify_step (es : list BMEdge) (min_c : Vec3) (vsize : float)
    (g : VoxelGrid) (idx : Index) : Result VoxelGrid :=
  let? inside := classify es min_c vsize idx in
  inr (if inside then mark g idx else g).

(** The loop [for idx in voxel_grid.iter_empty(): ...] of lines 110-120.
    The generator (suspended at offset [p]) and the loop body share the
    grid: each resumption scans the grid as the body left it.  The result is
    the grid the loop leaves, the indices the body was entered on, oldest
    first, and the exception that ended the loop, if one did. *)
Fixpoint classify_from (es : list BMEdge) (min_c : Vec3) (vsize : float)
    (g : VoxelGrid) (p fuel : nat) (seen : list Index)
  : VoxelGrid * list Index * option PyError :=
  match fuel with
  | O => (g, seen, None)
  | S fuel' =>
      match iter_empty_next g p with
      | None => (g, seen, None)
      | Some (idx, p') =>
          match classify_step es min_c vsize g idx with
          | inl e => (g, seen ++ [idx], Some e)
          | inr g' => classify_from es min_c vsize g' p' fuel' (seen ++ [idx])
          end
      end
  end.

Definition classify_grid (es : list BMEdge) (min_c : Vec3) (vsize : float)
    (g : VoxelGrid) : VoxelGrid * list Index * option PyError :=
  classify_from es min_c vsize g 0 (S (length (grid g))) [].

(** The body run over a list of indices made beforehand. *)
Fixpoint classify_list (es : list BMEdge) (min_c : Vec3) (vsize : float)
    (g : VoxelGrid) (todo seen : list Index)
  : VoxelGrid * list Index * option PyError :=
  match todo with
  | [] => (g, seen, None)
  | idx :: todo' =>
      match classify_step es min_c vsize g idx with
      | inl e => (g, seen ++ [idx], Some e)
      | inr g' => classify_list es min_c vsize g' todo' (seen ++ [idx])
      end
  end.

(** The loop against a snapshot: the empty voxels are listed first, from
    the grid as it is before the loop, and the body then runs on that
    list. *)
Definition classify_snapshot (es : list BMEdge) (min_c : Vec3) (vsize : float)
    (g : VoxelGrid) : VoxelGrid * list Index * option PyError :=
  classify_list es min_c vsize g (iter_empty g) [].

(** The body of the loop of lines 127-137 for one item of
    [np.ndenumerate(voxel_grid.grid)]. *)
Definition emit_voxel (props : VCG_Props.t float) (min_c : Vec3) (vsize : float)
    (coll_group : string) (item : Index * bool) : Op unit :=
  let '(idx, filled) := item in
  if negb filled then op_ret tt
  else
    let center := voxel_center min_c vsize idx in
    if VCG_Props.use_boxes props then
      let! _ := primitive_cube_add vsize center in
      let! cube := (λ c, (c, inr (active_object c))) in
      match cube with
      | None => op_raise AttributeError     (* cube.name = ... on None *)
      | Some cube =>
          let! _ := set_name cube (cube_name idx) in
          let! _ := collection_objects_link coll_group cube in
          scene_objects_unlink cube
      end
    else op_ret tt.

(** [for item in items: body(item)]: the loop stops at the first body that
    raises. *)
Fixpoint for_items (body : Index * bool → Op unit) (items : list (Index * bool))
  : Op unit :=
  match items with
  | [] => op_ret tt
  | item :: rest => op_bind (body item) (λ _, for_items body rest)
  end.

(** The loop of lines 127-137. *)
Definition emit_grid (props : VCG_Props.t float) (min_c : Vec3) (vsize : float)
    (coll_group : string) (g : VoxelGrid) : Op unit :=
  for_items (emit_voxel props min_c vsize coll_group) (ndenumerate g).

(** [min(xs)] and [max(xs)] over the eight values of one coordinate: the
    first value is kept until a later one compares below (above) it. *)
Definition min8 (xs : vec float 8) : float :=
  foldl (λ m x, if float_ltb x m then x else m) (xs !!! 0%fin)
        (drop 1 (vec_to_list xs)).
Definition max8 (xs : vec float 8) : float :=
  foldl (λ m x, if float_ltb m x then x else m) (xs !!! 0%fin)
        (drop 1 (vec_to_list xs)).

(** [min_corner] and [max_corner] of lines 94-95: per coordinate, [min] and
    [max] over the eight world-space corners. *)
Definition min_of_bounds (bounds : vec Vec3 8) : Vec3 :=
  (min8 (vmap (λ v : Vec3, v.1.1) bounds),
   min8 (vmap (λ v : Vec3, v.1.2) bounds),
   min8 (vmap (λ v : Vec3, v.2) bounds)).
Definition max_of_bounds (bounds : vec Vec3 8) : Vec3 :=
  (max8 (vmap (λ v : Vec3, v.1.1) bounds),
   max8 (vmap (λ v : Vec3, v.1.2) bounds),
   max8 (vmap (λ v : Vec3, v.2) bounds)).

(** What a run leaves behind: the status set it returned (["CANCELLED"] or
    ["FINISHED"]) or the exception that left it, the host state at that
    point, and, for the properties below, the value of the local
    [voxel_grid] at that point ([None] when the run never built one) with the
    indices the classification loop entered its body on. *)
Record Outcome := mkOutcome {
  out_result : Result string;
  out_context : Context;
  out_voxel_grid : option VoxelGrid;
  out_classified : list Index
}.

(** The values [execute] computes from the selected object before it
    touches the grid: the corners of the world-space bounding box and the
    edges of the transformed BMesh. *)
Definition world_min (obj : Object) : Vec3 :=
  min_of_bounds (vmap (Matrix_mul (matrix_world obj)) (bound_box obj)).
Definition world_max (obj : Object) : Vec3 :=
  max_of_bounds (vmap (Matrix_mul (matrix_world obj)) (bound_box obj)).
Definition world_edges (obj : Object) : list BMEdge :=
  bm_edges (transform (matrix_world obj) (from_mesh (data obj))).

(** The grid of line 98 for the selected object. *)
Definition fresh_grid (obj : Object) (vsize : float) : Result VoxelGrid :=
  VoxelGrid_init (world_min obj) (world_max obj) vsize.

(** The host state after lines 86-88. *)
Definition started (c : Context) : Context :=
  mode_set "OBJECT" (report "INFO" "Starting voxel-based primitive fitting..." c).

(** The outcome with the property group of the final host state replaced. *)
Definition outcome_with_props (p : VCG_Props.t float) (o : Outcome) : Outcome :=
  mkOutcome (out_result o) (set_vcg_props p (out_context o))
            (out_voxel_grid o) (out_classified o).

(** Lines 100-103: look the collection up by name; make it and link it
    under the scene when there is none. *)
Definition ensure_collection (c : Context) : Context :=
  match data_collections c !! VCG_Colliders with
  | Some _ => c
  | None => scene_children_link VCG_Colliders (collections_new VCG_Colliders c)
  end.

(** [VCG_OT_Generate.execute] *)
Definition execute (context : Context) : Outcome :=
  let props := vcg_props context in
  match active_obj context with
  | None =>
      mkOutcome (inr "CANCELLED") (report "ERROR" "Select a mesh object." context)
                None []
  | Some obj =>
      if negb (String.eqb (type obj) "MESH") then
        mkOutcome (inr "CANCELLED") (report "ERROR" "Select a mesh object." context)
                  None []
      else
        let c := report "INFO" "Starting voxel-based primitive fitting..." context in
        let c := mode_set "OBJECT" c in
        let mesh := data obj in
        let world_matrix := matrix_world obj in
        let bounds := vmap (Matrix_mul world_matrix) (bound_box obj) in
        let min_c := min_of_bounds bounds in
        let max_c := max_of_bounds bounds in
        let vsize := VCG_Props.voxel_size props in
        match VoxelGrid_init min_c max_c vsize with
        | inl e => mkOutcome (inl e) c None []
        | inr voxel_grid =>
            let c := ensure_collection c in
            let bm := transform world_matrix (from_mesh mesh) in
            match classify_grid (bm_edges bm) min_c vsize voxel_grid with
            | (voxel_grid, seen, Some e) =>
                (* the exception leaves the operator before bm.free() *)
                mkOutcome (inl e) c (Some voxel_grid) seen
            | (voxel_grid, seen, None) =>
                (* lines 124-125: a second generator is run to exhaustion,
                   to no effect *)
                let _ := iter_empty voxel_grid in
                match emit_grid props min_c vsize VCG_Colliders voxel_grid c with
                | (c, inl e) => mkOutcome (inl e) c (Some voxel_grid) seen
                | (c, inr _) =>
                    let c := report "INFO" "Voxel primitives placed." c in
                    mkOutcome (inr "FINISHED") c (Some voxel_grid) seen
                end
            end
        end
  end.

(** ** Vocabulary of the properties *)

(** The objects a run added to the store. *)
Definition created_objects (c : Context) (out : Outcome) : list Object :=
  drop (length (data_objects c)) (data_objects (out_context out)).

(** The reports a run added. *)
Definition new_reports (c : Context) (out : Outcome) : list (string * string) :=
  drop (length (reports c)) (reports (out_context out)).

(** The run stopped with an error report and changed nothing else: no
    collection, no grid, no object, nothing linked or unlinked. *)
Definition aborts_cleanly (c : Context) : Prop :=
  let out := execute c in
  out_result out = inr "CANCELLED" ∧
  (∃ msg, reports (out_context out) = reports c ++ [("ERROR", msg)]) ∧
  out_voxel_grid out = None ∧
  data_collections (out_context out) = data_collections c ∧
  scene_children (out_context out) = scene_children c ∧
  data_objects (out_context out) = data_objects c ∧
  scene_objects (out_context out) = scene_objects c.

(** The selection the operator refuses: nothing selected, or an object that
    is not a mesh. *)
Definition not_a_mesh_selection (c : Context) : Prop :=
  active_obj c = None ∨ ∃ obj, active_obj c = Some obj ∧ type obj ≠ "MESH".

(** The selection the specification wants refused: the above, or a mesh
    without polygons. *)
Definition precondition_violated (c : Context) : Prop :=
  active_obj c = None ∨
  ∃ obj, active_obj c = Some obj ∧ (type obj ≠ "MESH" ∨ polygons (data obj) = []).

(** No voxel of the grid the run holds is set. *)
Definition no_voxel_marked (out : Outcome) : Prop :=
  ∃ g, out_voxel_grid out = Some g ∧
       ∀ idx, in_range (grid_size g) idx = true → is_marked g idx = false.

(** The last report of a run. *)
Definition completion_report (out : Outcome) : option (string * string) :=
  last (reports (out_context out)).

End Model.

(** The text [needle] occurs in [s]. *)
Fixpoint occurs_in (needle s : string) : bool :=
  String.prefix needle s ||
  match s with
  | EmptyString => false
  | String _ s' => occurs_in needle s'
  end.

(** A message that tells the user that nothing was generated: it gives the
    count 0 or says that there are no primitives. *)
Definition says_nothing_generated (msg : string) : bool :=
  occurs_in "0" msg || occurs_in "no primitive" msg || occurs_in "No primitive" msg.

Section ModelClaims.
Context {numeric : Numeric} {blender : Blender}.

(** One of the reports the run added tells that nothing was generated. *)
Definition reports_nothing_generated (c : Context) (out : Outcome) : Prop :=
  ∃ level msg, (level, msg) ∈ new_reports c out ∧ says_nothing_generated msg = true.

(** A mesh without vertices, edges and polygons. *)
Definition empty_mesh_data (m : Mesh) : Prop :=
  vertices m = [] ∧ edges m = [] ∧ polygons m = [].

(** A run on an empty mesh finishes with no voxel set and no object
    created, and reports that nothing was generated. *)
Definition empty_mesh_run_reports_zero (c : Context) : Prop :=
  ∀ obj, active_obj c = Some obj → type obj = "MESH" → empty_mesh_data (data obj) →
         let out := execute c in
         out_result out = inr "FINISHED" ∧ no_voxel_marked out ∧
         created_objects c out = [] ∧ reports_nothing_generated c out.

End ModelClaims.

(** ** Registration of the add-on *)

(** What [register] and [unregister] change of the host: the classes that
    are registered, by name, and whether [bpy.types.Scene] has the attribute
    [vcg_props]. *)
Record Registry := mkRegistry {
  registered : list string;
  scene_has_vcg_props : bool
}.

(** The host calls that raise: [register_class] on a class that is
    registered, [unregister_class] on one that is not, [del] of an attribute
    that is not there. *)
Inductive Failure :=
  | AlreadyRegistered (cls : string)
  | NotRegistered (cls : string)
  | NoSuchAttribute (attr : string).

(** A host call leaves a registry and may raise. *)
Definition Step : Type := Registry → Registry * option Failure.

(** [classes = (VCG_Props, VCG_OT_Generate, VCG_PT_Panel)] *)
Definition classes : list string :=
  ["VCG_Props"; "VCG_OT_Generate"; "VCG_PT_Panel"].

(** [bpy.utils.register_class(cls)] *)
Definition register_class (cls : string) : Step := λ r,
  if decide (cls ∈ registered r) then (r, Some (AlreadyRegistered cls))
  else (mkRegistry (registered r ++ [cls]) (scene_has_vcg_props r), None).

(** [bpy.utils.unregister_class(cls)] *)
Definition unregister_class (cls : string) : Step := λ r,
  if decide (cls ∈ registered r)
  then (mkRegistry (filter (λ c, c ≠ cls) (registered r)) (scene_has_vcg_props r),
        None)
  else (r, Some (NotRegistered cls)).

(** [for cls in l: f(cls)]: the loop stops at the first call that raises. *)
Fixpoint for_each (f : string → Step) (l : list string) : Step := λ r,
  match l with
  | [] => (r, None)
  | cls :: l' =>
      match f cls r with
      | (r', None) => for_each f l' r'
      | (r', Some e) => (r', Some e)
      end
  end.

(** [def register()] *)
Definition register : Step := λ r,
  match for_each register_class classes r with
  | (r', None) => (mkRegistry (registered r') true, None)
  | (r', Some e) => (r', Some e)
  end.

(** [def unregister()] *)
Definition unregister : Step := λ r,
  match for_each unregister_class (reverse classes) r with
  | (r', None) =>
      if scene_has_vcg_props r'
      then (mkRegistry (registered r') false, None)
      else (r', Some (NoSuchAttribute "vcg_props"))
  | (r', Some e) => (r', Some e)
  end.

(** ** An instance for evaluation: rational arithmetic

    The numbers are rationals and every operation is exact, except
    [normalized], which divides by the length rounded down to six decimal
    places.  A name that is taken gets the first free suffix [.001],
    [.002], ... *)

Definition exact_div (x y : Q) : Result Q :=
  if Qeq_bool y 0 then inl ZeroDivisionError else inr (x / y)%Q.

Definition exact_int (q : Q) : Z := Z.quot (Qnum q) (Z.pos (Qden q)).

Definition exact_add (u v : triple Q) : triple Q :=
  let '(a, b, c) := u in let '(x, y, z) := v in (a + x, b + y, c + z)%Q.
Definition exact_sub (u v : triple Q) : triple Q :=
  let '(a, b, c) := u in let '(x, y, z) := v in (a - x, b - y, c - z)%Q.
Definition exact_mul (u : triple Q) (s : Q) : triple Q :=
  let '(a, b, c) := u in (a * s, b * s, c * s)%Q.
Definition exact_vdiv (u : triple Q) (s : Q) : Result (triple Q) :=
  if Qeq_bool s 0 then inl ZeroDivisionError
  else let '(a, b, c) := u in inr (a / s, b / s, c / s)%Q.
Definition exact_dot (u v : triple Q) : Q :=
  let '(a, b, c) := u in let '(x, y, z) := v in (a * x + b * y + c * z)%Q.

(** The square root rounded down to six decimal places. *)
Definition approx_sqrt (q : Q) : Q :=
  (inject_Z (Z.sqrt (Qfloor (q * inject_Z (10 ^ 12)))) / inject_Z (10 ^ 6))%Q.

Definition exact_normalized (u : triple Q) : triple Q :=
  let len := approx_sqrt (exact_dot u u) in
  if Qeq_bool len 0 then u else exact_mul u (/ len)%Q.

(** The first three rows of a 4x4 matrix; the product with a 3D vector
    reads only these and takes the fourth component of the vector as 1. *)
Definition exact_matrix : Type := (Q * Q * Q * Q) * (Q * Q * Q * Q) * (Q * Q * Q * Q).

Definition exact_matmul (m : exact_matrix) (v : triple Q) : triple Q :=
  let '(r0, r1, r2) := m in
  let '(x, y, z) := v in
  let row (r : Q * Q * Q * Q) : Q :=
    let '(a, b, c, d) := r in (a * x + b * y + c * z + d)%Q in
  (row r0, row r1, row r2).

Definition exact_numeric : Numeric :=
  {| float := Q; Matrix := exact_matrix;
     float_of_int := inject_Z; float_lit := λ q, q;
     float_ltb := λ x y, (Qnum (y - x) >? 0);
     float_div := exact_div;
     ceil := λ q, inr (Qceiling q);
     int := λ q, inr (exact_int q);
     Vector_add := exact_add; Vector_sub := exact_sub;
     Vector_mul := exact_mul; Vector_div := exact_vdiv;
     Vector_dot := exact_dot; Vector_normalized := exact_normalized;
     Matrix_mul := exact_matmul |}.

Definition Matrix_identity : exact_matrix :=
  ((1, 0, 0, 0), (0, 1, 0, 0), (0, 0, 1, 0))%Q.

Definition Matrix_translation (t : triple Q) : exact_matrix :=
  let '(x, y, z) := t in ((1, 0, 0, x), (0, 1, 0, y), (0, 0, 1, z))%Q.

(** A cube of edge length [s] around the local origin.  Vertex
    [4a + 2b + c] sits at [(±s/2, ±s/2, ±s/2)] with signs given by the bits
    [a], [b], [c]. *)
Definition cube_mesh (size : Q) : @Mesh exact_numeric :=
  let h := (size / 2)%Q in
  let l := (- h)%Q in
  @mkMesh exact_numeric
    [(l, l, l); (l, l, h); (l, h, l); (l, h, h);
     (h, l, l); (h, l, h); (h, h, l); (h, h, h)]
    [(0, 1); (2, 3); (4, 5); (6, 7);
     (0, 2); (1, 3); (4, 6); (5, 7);
     (0, 4); (1, 5); (2, 6); (3, 7)]%nat
    [[0; 1; 3; 2]; [4; 6; 7; 5]; [0; 4; 5; 1];
     [2; 3; 7; 6]; [0; 2; 6; 4]; [1; 5; 7; 3]]%nat.

Definition cube_bound_box (size : Q) : vec (triple Q) 8 :=
  let h := (size / 2)%Q in
  let l := (- h)%Q in
  [# (l, l, l); (l, l, h); (l, h, h); (l, h, l);
     (h, l, l); (h, l, h); (h, h, h); (h, h, l)].

(** The object [primitive_cube_add] builds: unrotated and unscaled, moved
    to [location]. *)
Definition cube_object (size : Q) (location : triple Q) : @Object exact_numeric :=
  @mkObject exact_numeric "Cube" "MESH" (cube_mesh size)
    (Matrix_translation location) (cube_bound_box size).

(** [k] written with at least three digits. *)
Definition three_digits (k : nat) : string :=
  let s := pretty k in
  match String.length s with
  | 1%nat => "00" +:+ s
  | 2%nat => "0" +:+ s
  | _ => s
  end.

Fixpoint first_free (taken : list string) (n : string) (k fuel : nat) : string :=
  match fuel with
  | O => n
  | S fuel' =>
      let candidate := n +:+ "." +:+ three_digits k in
      if decide (candidate ∈ taken) then first_free taken n (S k) fuel'
      else candidate
  end.

Definition exact_unique_name (taken : list string) (n : string) : string :=
  if decide (n ∈ taken) then first_free taken n 1 (S (length taken)) else n.

Definition exact_blender : @Blender exact_numeric :=
  @Build_Blender exact_numeric exact_unique_name cube_object.

#[global] Existing Instance exact_blender.

(** ** Concrete scenes *)

Module Scenes.
#[local] Existing Instance exact_numeric.

(** The host's default cube: edge length 2 around the origin. *)
Definition cube : Object :=
  {| name := "Cube"; type := "MESH"; data := cube_mesh 2;
     matrix_world := Matrix_identity; bound_box := cube_bound_box 2 |}.

Definition box_0_2 : vec Vec3 8 :=
  [# (0, 0, 0); (0, 0, 2); (0, 2, 2); (0, 2, 0);
     (2, 0, 0); (2, 0, 2); (2, 2, 2); (2, 2, 0)]%Q.

(** A tetrahedron on the origin and the three points at distance 2 on
    the axes: 4 vertices, 6 edges, 4 triangles. *)
Definition tetra : Object :=
  {| name := "Tetra"; type := "MESH";
     data := {| vertices := [(0, 0, 0); (2, 0, 0); (0, 2, 0); (0, 0, 2)]%Q;
                edges := [(0, 1); (0, 2); (0, 3); (1, 2); (1, 3); (2, 3)]%nat;
                polygons := [[0; 2; 1]; [0; 1; 3]; [0; 3; 2]; [1; 2; 3]]%nat |};
     matrix_world := Matrix_identity; bound_box := box_0_2 |}.

(** A mesh object without any geometry, with the bounding box of the
    default cube. *)
Definition empty_mesh : Object :=
  {| name := "Empty"; type := "MESH"; data := mkMesh [] [] [];
     matrix_world := Matrix_identity; bound_box := cube_bound_box 2 |}.

(** A flat mesh: the square with corners (0, 0, 0) and (2, 2, 0), four
    edges, one polygon; its bounding box has no extent along z. *)
Definition plane : Object :=
  {| name := "Plane"; type := "MESH";
     data := {| vertices := [(0, 0, 0); (2, 0, 0); (2, 2, 0); (0, 2, 0)]%Q;
                edges := [(0, 1); (1, 2); (2, 3); (3, 0)]%nat;
                polygons := [[0; 1; 2; 3]]%nat |};
     matrix_world := Matrix_identity;
     bound_box := [# (0, 0, 0); (0, 0, 0); (0, 2, 0); (0, 2, 0);
                     (2, 0, 0); (2, 0, 0); (2, 2, 0); (2, 2, 0)]%Q |}.

(** An object that is not a mesh. *)
Definition camera : Object :=
  {| name := "Camera"; type := "CAMERA"; data := mkMesh [] [] [];
     matrix_world := Matrix_identity; bound_box := box_0_2 |}.

Definition props (vsize : Q) (boxes spheres capsules merge : bool) : VCG_Props.t Q :=
  {| VCG_Props.voxel_size := vsize; VCG_Props.use_boxes := boxes;
     VCG_Props.use_spheres := spheres; VCG_Props.use_capsules := capsules;
     VCG_Props.merge_output := merge; VCG_Props.voxel_resolution := 32 |}.

(** A scene holding just [obj], selected, in the root collection of the
    scene, which is the active collection, with the given properties. *)
Definition scene_with (obj : Object) (p : VCG_Props.t Q) : Context :=
  {| vcg_props := p; active_object := Some 0%nat; mode := "OBJECT";
     data_objects := [obj]; data_collections := ∅;
     scene_children := []; scene_objects := [0%nat]; collection := None;
     reports := [] |}.

(** The same scene with nothing selected. *)
Definition scene_unselected (obj : Object) (p : VCG_Props.t Q) : Context :=
  set_active_object None (scene_with obj p).

Definition empty_scene : Context := scene_with empty_mesh (props 1 true true false false).
Definition plane_scene : Context := scene_with plane (props 1 true true false false).
Definition tetra_scene : Context := scene_with tetra (props 1 true true false false).
Definition cube_scene : Context := scene_with cube (props 1 true true false false).

(** The default cube with boxes and merging asked for. *)
Definition cube_merge_scene : Context :=
  scene_with cube (props 1 true false false true).

(** The empty mesh with boxes and merging asked for. *)
Definition empty_merge_scene : Context :=
  scene_with empty_mesh (props 1 true false false true).


(** A 2 x 2 x 2 grid of voxel size 1 at the origin, nothing set. *)
Definition blank_grid : VoxelGrid :=
  {| min_corner := (0, 0, 0)%Q; max_corner := (2, 2, 2)%Q; voxel_size := 1%Q;
     dims := (2, 2, 2)%Q; grid_size := (2, 2, 2); grid := replicate 8 false |}.

(** The same grid with the voxels (0, 0, 0) and (0, 1, 1) set. *)
Definition sample_grid : VoxelGrid := mark (mark blank_grid (0, 0, 0)) (0, 1, 1).

(** The grid line 98 builds for an object with the bounding box of the
    default cube at voxel size 1: 2 x 2 x 2 voxels, nothing set. *)
Definition cube_grid : VoxelGrid :=
  Eval vm_compute in
    match fresh_grid cube 1%Q with
    | inr g => g
    | inl _ => blank_grid
    end.

(** The grid line 98 builds for the flat square at voxel size 1: 2 x 2 x 0
    voxels. *)
Definition plane_grid : VoxelGrid :=
  Eval vm_compute in
    match fresh_grid plane 1%Q with
    | inr g => g
    | inl _ => blank_grid
    end.

End Scenes.
(** * Properties *)

(** ** Row-major offsets *)

Section Ravel.
Variables nx ny nz : Z.

Lemma in_range_spec i j k :
  in_range (nx, ny, nz) (i, j, k) = true ↔
  (0 ≤ i < nx ∧ 0 ≤ j < ny ∧ 0 ≤ k < nz).
Proof.
  unfold in_range. rewrite !andb_true_iff, !Z.leb_le, !Z.ltb_lt. lia.
Qed.

Lemma in_range_false i j k :
  in_range (nx, ny, nz) (i, j, k) = false ↔
  (i < 0 ∨ nx ≤ i ∨ j < 0 ∨ ny ≤ j ∨ k < 0 ∨ nz ≤ k).
Proof.
  rewrite <- not_true_iff_false, in_range_spec. lia.
Qed.

Lemma shape_cells_Z :
  0 < nx → 0 < ny → 0 < nz →
  Z.of_nat (shape_cells (nx, ny, nz)) = nx * ny * nz.
Proof. intros. unfold shape_cells. lia. Qed.

Lemma shape_cells_pos p :
  (p < shape_cells (nx, ny, nz))%nat → 0 < nx ∧ 0 < ny ∧ 0 < nz.
Proof.
  unfold shape_cells. intros Hp.
  destruct (Z.to_nat nx) eqn:?, (Z.to_nat ny) eqn:?, (Z.to_nat nz) eqn:?; lia.
Qed.

Lemma ravel_lt i j k :
  in_range (nx, ny, nz) (i, j, k) = true →
  (ravel (nx, ny, nz) (i, j, k) < shape_cells (nx, ny, nz))%nat.
Proof.
  rewrite in_range_spec. intros (Hi & Hj & Hk).
  apply Nat2Z.inj_lt. rewrite shape_cells_Z by lia.
  assert (0 ≤ i * ny) by nia.
  assert (0 ≤ (i * ny + j) * nz) by nia.
  unfold ravel. rewrite Z2Nat.id by lia.
  assert (i * ny + j + 1 ≤ nx * ny) by nia. nia.
Qed.

Lemma unravel_ravel i j k :
  in_range (nx, ny, nz) (i, j, k) = true →
  unravel (nx, ny, nz) (ravel (nx, ny, nz) (i, j, k)) = (i, j, k).
Proof.
  rewrite in_range_spec. intros (Hi & Hj & Hk).
  assert (0 ≤ i * ny) by nia.
  assert (0 ≤ (i * ny + j) * nz) by nia.
  unfold unravel, ravel. rewrite Z2Nat.id by lia.
  assert (Hq : ((i * ny + j) * nz + k) / nz = i * ny + j).
  { symmetry. apply (Z.div_unique _ _ _ k); lia. }
  assert (Hr : ((i * ny + j) * nz + k) mod nz = k).
  { symmetry. apply (Z.mod_unique _ _ (i * ny + j)); lia. }
  assert (Hi' : ((i * ny + j) * nz + k) / (ny * nz) = i).
  { symmetry. apply (Z.div_unique _ _ _ (j * nz + k)); nia. }
  assert (Hj' : (i * ny + j) mod ny = j).
  { symmetry. apply (Z.mod_unique _ _ i); lia. }
  by rewrite Hq, Hr, Hi', Hj'.
Qed.

(** Whatever the first extent, an offset whose index is in range is the
    offset of that index. *)
Lemma ravel_unravel p :
  in_range (nx, ny, nz) (unravel (nx, ny, nz) p) = true →
  ravel (nx, ny, nz) (unravel (nx, ny, nz) p) = p.
Proof.
  unfold unravel. rewrite in_range_spec. intros (Hi & Hj & Hk).
  unfold ravel. apply Nat2Z.inj.
  assert (Hz : 0 ≤ Z.of_nat p) by lia.
  revert Hi Hj Hk Hz. generalize (Z.of_nat p). intros z Hi Hj Hk Hz.
  rewrite (Z.mul_comm ny nz), <- Z.div_div in * by lia.
  pose proof (Z.div_mod (z / nz) ny ltac:(lia)) as E1.
  pose proof (Z.div_mod z nz ltac:(lia)) as E2.
  revert Hi Hj Hk E1 E2.
  generalize (z / nz / ny). generalize ((z / nz) mod ny).
  generalize (z mod nz). generalize (z / nz).
  intros q c b a Hi Hj Hk E1 E2.
  assert (0 ≤ a * ny) by nia.
  assert (0 ≤ (a * ny + b) * nz) by nia.
  rewrite Z2Nat.id by lia. rewrite E2, E1. ring.
Qed.

Lemma unravel_in_range p :
  (p < shape_cells (nx, ny, nz))%nat →
  in_range (nx, ny, nz) (unravel (nx, ny, nz) p) = true.
Proof.
  intros Hp. destruct (shape_cells_pos _ Hp) as (Hx & Hy & Hz).
  apply Nat2Z.inj_lt in Hp. rewrite shape_cells_Z in Hp by lia.
  unfold unravel. rewrite in_range_spec.
  pose proof (Z.mod_pos_bound (Z.of_nat p / nz) ny Hy).
  pose proof (Z.mod_pos_bound (Z.of_nat p) nz Hz).
  assert (0 < ny * nz) by nia.
  repeat split; try lia.
  - apply Z.div_pos; lia.
  - apply Z.div_lt_upper_bound; [lia|]. nia.
Qed.

Lemma ravel_mono i j k i' j' k' :
  in_range (nx, ny, nz) (i, j, k) = true →
  in_range (nx, ny, nz) (i', j', k') = true →
  index_lt (i, j, k) (i', j', k') →
  (ravel (nx, ny, nz) (i, j, k) < ravel (nx, ny, nz) (i', j', k'))%nat.
Proof.
  rewrite !in_range_spec. unfold index_lt, ravel. intros ? ? Hlt.
  assert (0 ≤ i * ny) by nia. assert (0 ≤ (i * ny + j) * nz) by nia.
  assert (0 ≤ i' * ny) by nia. assert (0 ≤ (i' * ny + j') * nz) by nia.
  apply Z2Nat.inj_lt; [lia | lia |].
  destruct Hlt as [Hlt | [-> [Hlt | [-> Hlt]]]]; [|nia|lia].
  assert (i * ny + j + 1 ≤ i' * ny + j') by nia. nia.
Qed.

End Ravel.

Lemma index_lt_total (a b : Index) : index_lt a b ∨ a = b ∨ index_lt b a.
Proof.
  destruct a as [[i j] k], b as [[i' j'] k']. unfold index_lt.
  destruct (Z.lt_total i i') as [|[->|]]; auto.
  destruct (Z.lt_total j j') as [|[->|]]; auto 6.
  destruct (Z.lt_total k k') as [|[->|]]; auto 8.
Qed.


Lemma unravel_mono shape p q :
  (p < q)%nat → (q < shape_cells shape)%nat →
  index_lt (unravel shape p) (unravel shape q).
Proof.
  destruct shape as [[nx ny] nz]. intros Hpq Hq.
  assert (Hp : (p < shape_cells (nx, ny, nz))%nat) by lia.
  pose proof (unravel_in_range _ _ _ _ Hp) as Rp.
  pose proof (unravel_in_range _ _ _ _ Hq) as Rq.
  pose proof (ravel_unravel _ _ _ _ Rp) as Ep.
  pose proof (ravel_unravel _ _ _ _ Rq) as Eq.
  destruct (unravel (nx, ny, nz) p) as [[i j] k] eqn:Up.
  destruct (unravel (nx, ny, nz) q) as [[i' j'] k'] eqn:Uq.
  destruct (index_lt_total (i, j, k) (i', j', k')) as [|[E|Hgt]]; [done| |].
  - rewrite E in Ep. lia.
  - pose proof (ravel_mono _ _ _ _ _ _ _ _ _ Rq Rp Hgt). lia.
Qed.

(** ** The generator [iter_empty] *)

Section Generator.
Variable shape : Index.

Lemma empty_offsets_cons buf p n :
  empty_offsets buf p (S n) =
  if decide (buf !! p = Some false)
  then p :: empty_offsets buf (S p) n
  else empty_offsets buf (S p) n.
Proof. unfold empty_offsets. simpl. by rewrite filter_cons. Qed.

Lemma empty_offsets_beyond buf p n :
  (length buf ≤ p)%nat → empty_offsets buf p n = [].
Proof.
  revert p. induction n as [|n IH]; intros p Hp; [done|].
  rewrite empty_offsets_cons, decide_False.
  - apply IH. lia.
  - rewrite (lookup_ge_None_2 buf p) by lia. done.
Qed.

Lemma empty_offsets_head buf p n q rest :
  empty_offsets buf p n = q :: rest →
  (p ≤ q < p + n)%nat ∧ buf !! q = Some false ∧
  rest = empty_offsets buf (S q) (p + n - S q).
Proof.
  revert p. induction n as [|n IH]; intros p; [done|].
  rewrite empty_offsets_cons. case_decide as Hp.
  - intros [= <- <-]. split_and!; [lia | lia | done |].
    f_equal. lia.
  - intros E. destruct (IH _ E) as (? & ? & ->).
    split_and!; [lia | lia | done |]. f_equal. lia.
Qed.

(** One resumption finds the first empty cell at or after the offset. *)
Lemma iter_empty_scan_spec buf fuel p :
  iter_empty_scan shape buf p fuel =
  (λ q, (unravel shape q, S q)) <$> head (empty_offsets buf p fuel).
Proof.
  revert p. induction fuel as [|fuel IH]; intros p; [done|].
  simpl. rewrite empty_offsets_cons.
  destruct (buf !! p) as [[]|] eqn:E.
  - rewrite decide_False by done. apply IH.
  - by rewrite decide_True.
  - rewrite decide_False by done.
    rewrite empty_offsets_beyond; [done|].
    apply lookup_ge_None in E. lia.
Qed.

Lemma iter_empty_scan_Some buf fuel p idx p' :
  iter_empty_scan shape buf p fuel = Some (idx, p') →
  ∃ q, (p ≤ q)%nat ∧ p' = S q ∧ idx = unravel shape q ∧ buf !! q = Some false.
Proof.
  rewrite iter_empty_scan_spec.
  destruct (empty_offsets buf p fuel) as [|q rest] eqn:E; [done|].
  intros [= <- <-]. destruct (empty_offsets_head _ _ _ _ _ E) as (? & ? & _).
  exists q. split_and!; [lia | done..].
Qed.

(** Marking a cell behind the generator does not change what it yields. *)
Lemma iter_empty_scan_insert buf q fuel p :
  (q < p)%nat →
  iter_empty_scan shape (<[q := true]> buf) p fuel =
  iter_empty_scan shape buf p fuel.
Proof.
  revert p. induction fuel as [|fuel IH]; intros p Hq; [done|].
  simpl. rewrite list_lookup_insert_ne by lia.
  destruct (buf !! p) as [[]|]; [|done..]. apply IH. lia.
Qed.

End Generator.

(** ** Lists *)

Lemma filter_fmap_elem {A B} (f : A → B) (P : B → Prop) (Q : A → Prop)
    `{!∀ y, Decision (P y), !∀ x, Decision (Q x)} (l : list A) :
  (∀ x, x ∈ l → P (f x) ↔ Q x) →
  filter P (f <$> l) = f <$> filter Q l.
Proof.
  induction l as [|x l IH]; intros HPQ; [done|].
  rewrite fmap_cons, !filter_cons.
  assert (Hl : ∀ y, y ∈ l → P (f y) ↔ Q y) by (intros y ?; apply HPQ; by right).
  assert (Hx : P (f x) ↔ Q x) by (apply HPQ; left).
  rewrite (IH Hl).
  destruct (decide (P (f x))), (decide (Q x)); tauto || done.
Qed.

Lemma StronglySorted_filter {A} (R : relation A) (P : A → Prop)
    `{!∀ x, Decision (P x)} (l : list A) :
  StronglySorted R l → StronglySorted R (filter P l).
Proof.
  induction 1 as [|x l Hs IH Hx]; [constructor|].
  rewrite filter_cons. case_decide; [|done].
  constructor; [done|].
  apply Forall_forall. intros y Hy. apply list_elem_of_filter in Hy as [_ Hy].
  by eapply Forall_forall in Hx.
Qed.

Lemma filter_elem_ext {A} (P Q : A → Prop)
    `{!∀ x, Decision (P x), !∀ x, Decision (Q x)} (l : list A) :
  (∀ x, x ∈ l → P x ↔ Q x) → filter P l = filter Q l.
Proof.
  intros HPQ. rewrite <- (list_fmap_id l) at 1.
  rewrite (filter_fmap_elem Datatypes.id P Q l HPQ). apply list_fmap_id.
Qed.

Lemma filter_none {A} (P : A → Prop) `{!∀ x, Decision (P x)} (l : list A) :
  (∀ x, x ∈ l → ¬ P x) → filter P l = [].
Proof.
  induction l as [|a l IH]; intros Hno; [done|].
  rewrite filter_cons_False by (apply Hno; left).
  apply IH. intros x Hx. apply Hno. by right.
Qed.

(** ** Enumeration order *)

Lemma StronglySorted_index_lt_NoDup (l : list Index) :
  StronglySorted index_lt l → NoDup l.
Proof.
  induction 1 as [|x l Hs IH Hx]; constructor; [|done].
  intros Hin. eapply Forall_forall in Hx; [|done].
  destruct x as [[i j] k]. unfold index_lt in Hx. lia.
Qed.

Lemma ndindex_sorted_from shape n p :
  (p + n ≤ shape_cells shape)%nat →
  StronglySorted index_lt (unravel shape <$> seq p n).
Proof.
  revert p. induction n as [|n IH]; intros p Hp; [constructor|].
  simpl. constructor; [apply IH; lia|].
  apply Forall_forall. intros y Hy.
  apply list_elem_of_fmap in Hy as (q & -> & Hq). apply elem_of_seq in Hq.
  apply unravel_mono; lia.
Qed.

Lemma ndindex_sorted shape : StronglySorted index_lt (ndindex shape).
Proof. apply ndindex_sorted_from. lia. Qed.

Lemma elem_of_ndindex shape idx :
  idx ∈ ndindex shape ↔ in_range shape idx = true.
Proof.
  destruct shape as [[nx ny] nz], idx as [[i j] k]. unfold ndindex.
  rewrite list_elem_of_fmap. split.
  - intros (p & -> & Hp). apply elem_of_seq in Hp. apply unravel_in_range. lia.
  - intros R. exists (ravel (nx, ny, nz) (i, j, k)). split.
    + by rewrite unravel_ravel.
    + apply elem_of_seq. pose proof (ravel_lt _ _ _ _ _ _ R). lia.
Qed.

(** ** Set cells of an enumerated buffer *)

Lemma set_items_app items1 items2 :
  set_items (items1 ++ items2) = set_items items1 ++ set_items items2.
Proof. unfold set_items. by rewrite filter_app, fmap_app. Qed.

(** The set cells of an enumerated buffer, by offset. *)
Lemma set_items_zip (f : nat → Index) (buf : list bool) :
  set_items (zip (f <$> seq 0 (length buf)) buf) =
  f <$> filter (λ q, buf !! q = Some true) (seq 0 (length buf)).
Proof.
  induction buf as [|b buf IH] using rev_ind; [done|].
  rewrite length_app. simpl. rewrite seq_app, fmap_app. simpl.
  rewrite zip_with_app by by rewrite length_fmap, length_seq.
  rewrite set_items_app, IH, filter_app, fmap_app. f_equal.
  - f_equal. apply filter_elem_ext. intros q Hq. apply elem_of_seq in Hq.
    by rewrite lookup_app_l by lia.
  - rewrite filter_cons, filter_nil.
    rewrite lookup_app_r, Nat.sub_diag by lia. simpl.
    unfold set_items. rewrite filter_cons, filter_nil. simpl.
    destruct b; repeat case_decide; done.
Qed.

Lemma set_items_cons idx (b : bool) items :
  set_items ((idx, b) :: items) =
  if b then idx :: set_items items else set_items items.
Proof.
  unfold set_items. rewrite filter_cons. simpl. by destruct b.
Qed.

Lemma empty_offsets_all_false n p m :
  (p + m ≤ n)%nat → empty_offsets (replicate n false) p m = seq p m.
Proof.
  unfold empty_offsets. revert p. induction m as [|m IH]; intros p Hp; [done|].
  simpl. rewrite filter_cons_True by (apply lookup_replicate_2; lia).
  f_equal. apply IH. lia.
Qed.

Lemma set_items_all_false (l : list Index) n :
  set_items (zip l (replicate n false)) = [].
Proof.
  revert n. induction l as [|idx l IH]; intros n; [done|].
  destruct n as [|n]; [done|]. simpl. rewrite set_items_cons. apply IH.
Qed.

Lemma np_zeros_spec shape buf :
  np_zeros shape = inr buf → buf = replicate (shape_cells shape) false.
Proof.
  unfold np_zeros. destruct shape as [[nx ny] nz].
  destruct ((nx <? 0) || (ny <? 0) || (nz <? 0)); [done|]. by intros [= <-].
Qed.

(** ** The grid *)

Section Grid.
Context {numeric : Numeric}.

Lemma iter_empty_next_Some g p idx p' :
  iter_empty_next g p = Some (idx, p') →
  ∃ q, (p ≤ q)%nat ∧ p' = S q ∧ idx = unravel (grid_size g) q ∧
       grid g !! q = Some false.
Proof. apply iter_empty_scan_Some. Qed.

(** A run of the generator yields the indices of the empty offsets. *)
Lemma iter_empty_from_spec g fuel p :
  (length (grid g) < p + fuel)%nat →
  iter_empty_from g p fuel =
  unravel (grid_size g) <$> empty_offsets (grid g) p (length (grid g) - p).
Proof.
  revert p. induction fuel as [|fuel IH]; intros p Hf.
  - simpl. replace (length (grid g) - p)%nat with 0%nat by lia. done.
  - simpl. unfold iter_empty_next. rewrite iter_empty_scan_spec.
    destruct (empty_offsets (grid g) p (length (grid g) - p))
      as [|q rest] eqn:E; [done|].
    destruct (empty_offsets_head _ _ _ _ _ E) as (Hq & _ & ->).
    simpl. f_equal. rewrite IH by lia. do 2 f_equal. lia.
Qed.

Lemma iter_empty_spec g :
  iter_empty g =
  unravel (grid_size g) <$> empty_offsets (grid g) 0 (length (grid g)).
Proof.
  unfold iter_empty. rewrite iter_empty_from_spec by lia.
  by rewrite Nat.sub_0_r.
Qed.

(** ** Marking *)

Lemma grid_size_mark g idx : grid_size (mark g idx) = grid_size g.
Proof. unfold mark. by destruct (in_range _ _). Qed.

Lemma length_grid_mark g idx : length (grid (mark g idx)) = length (grid g).
Proof.
  unfold mark. destruct (in_range _ _); [|done].
  simpl. unfold setitem_true. by rewrite length_insert.
Qed.




Lemma mark_in_range g a :
  in_range (grid_size g) a = true →
  mark g a = set_grid g (<[ravel (grid_size g) a := true]> (grid g)).
Proof. intros R. unfold mark. by rewrite R. Qed.

Lemma mark_out_of_range g a : in_range (grid_size g) a = false → mark g a = g.
Proof. intros R. unfold mark. by rewrite R. Qed.

(** On a well-formed grid, the cell at an offset inside the buffer is the
    cell [is_marked] reads for the index of that offset. *)
Lemma is_marked_unravel g p :
  wf_grid g → (p < length (grid g))%nat →
  grid g !! p = Some (is_marked g (unravel (grid_size g) p)).
Proof.
  intros Hwf Hp. unfold is_marked, getitem.
  destruct (grid_size g) as [[nx ny] nz] eqn:Es.
  rewrite Hwf, Es in Hp.
  rewrite unravel_in_range, ravel_unravel by (by try apply unravel_in_range).
  destruct (lookup_lt_is_Some_2 (grid g) p) as [b ->]; [|done].
  by rewrite Hwf, Es.
Qed.

Lemma is_marked_lookup g idx :
  wf_grid g → in_range (grid_size g) idx = true →
  grid g !! ravel (grid_size g) idx = Some (is_marked g idx).
Proof.
  intros Hwf R. unfold is_marked, getitem. rewrite R.
  destruct (lookup_lt_is_Some_2 (grid g) (ravel (grid_size g) idx)) as [b ->]; [|done].
  rewrite Hwf. destruct (grid_size g) as [[nx ny] nz], idx as [[i j] k].
  by apply ravel_lt.
Qed.

(** [iter_empty] walks the indices in the order of [np.ndindex] and keeps
    those whose cell is not set. *)
Lemma iter_empty_filter g :
  wf_grid g →
  iter_empty g = filter (λ idx, is_marked g idx = false) (ndindex (grid_size g)).
Proof.
  intros Hwf. rewrite iter_empty_spec. unfold empty_offsets, ndindex.
  rewrite <- Hwf. symmetry. apply filter_fmap_elem.
  intros p Hp. apply elem_of_seq in Hp.
  rewrite (is_marked_unravel g p) by (done || lia).
  split; [by intros -> | by intros [= ->]].
Qed.

Lemma filled_indices_filter g :
  wf_grid g →
  filled_indices g =
  filter (λ idx, is_marked g idx = true) (ndindex (grid_size g)).
Proof.
  intros Hwf. unfold filled_indices, ndenumerate, ndindex.
  rewrite <- Hwf, set_items_zip. symmetry. apply filter_fmap_elem.
  intros p Hp. apply elem_of_seq in Hp.
  rewrite (is_marked_unravel g p) by (done || lia).
  split; [by intros -> | by intros [= ->]].
Qed.

(** ** [VoxelGrid.__init__] *)

(** When [__init__] returns, the grid holds the corners and the voxel size
    it was given, and a buffer of one [False] per cell. *)
Lemma VoxelGrid_init_spec min_c max_c vsize g :
  VoxelGrid_init min_c max_c vsize = inr g →
  min_corner g = min_c ∧ max_corner g = max_c ∧ voxel_size g = vsize ∧
  grid g = replicate (shape_cells (grid_size g)) false.
Proof.
  unfold VoxelGrid_init. destruct (Vector_sub max_c min_c) as [[dx dy] dz].
  destruct (cells_along dx vsize) as [|nx]; [done|].
  destruct (cells_along dy vsize) as [|ny]; [done|].
  destruct (cells_along dz vsize) as [|nz]; [done|].
  cbn [result_bind].
  destruct (np_zeros (nx, ny, nz)) as [|buf] eqn:Ez; [done|].
  cbn [result_bind]. intros [= <-]. cbn [min_corner max_corner voxel_size grid grid_size].
  split_and!; [done..|]. by apply np_zeros_spec.
Qed.

Lemma wf_grid_all_false g :
  grid g = replicate (shape_cells (grid_size g)) false → wf_grid g.
Proof. intros E. unfold wf_grid. by rewrite E, length_replicate. Qed.

Lemma iter_empty_all_false g :
  grid g = replicate (shape_cells (grid_size g)) false →
  iter_empty g = ndindex (grid_size g).
Proof.
  intros E. rewrite iter_empty_spec. unfold ndindex. f_equal.
  rewrite E at 1. rewrite E, length_replicate.
  by apply empty_offsets_all_false.
Qed.

Lemma filled_indices_all_false g :
  grid g = replicate (shape_cells (grid_size g)) false → filled_indices g = [].
Proof.
  intros E. unfold filled_indices, ndenumerate. rewrite E.
  apply set_items_all_false.
Qed.

Lemma is_marked_all_false g idx :
  grid g = replicate (shape_cells (grid_size g)) false →
  in_range (grid_size g) idx = true → is_marked g idx = false.
Proof.
  intros E R. pose proof (is_marked_lookup g idx (wf_grid_all_false g E) R) as Hl.
  rewrite E in Hl. apply lookup_replicate in Hl as [Hl _]. done.
Qed.

End Grid.

(** ** The classification loop *)

Section Sweep.
Context {numeric : Numeric}.
Variables (es : list BMEdge) (min_c : Vec3) (vsize : float).

(** The body leaves the grid as it was or with the one voxel it ran on
    set. *)
Lemma classify_step_inr g idx g' :
  classify_step es min_c vsize g idx = inr g' → g' = g ∨ g' = mark g idx.
Proof.
  unfold classify_step.
  destruct (classify es min_c vsize idx) as [e|[]]; cbn; intros [= <-]; auto.
Qed.

(** A mark on the voxel the generator just yielded is behind the
    generator: it resumes on a buffer that agrees with the old one from its
    offset on. *)
Lemma iter_empty_next_mark g p idx p' p'' :
  iter_empty_next g p = Some (idx, p') → (p' ≤ p'')%nat →
  iter_empty_next (mark g idx) p'' = iter_empty_next g p''.
Proof.
  intros Hn Hp. destruct (iter_empty_next_Some _ _ _ _ Hn) as (q & ? & -> & -> & _).
  unfold iter_empty_next. rewrite length_grid_mark, grid_size_mark.
  unfold mark.
  destruct (in_range (grid_size g) (unravel (grid_size g) q)) eqn:R; [|done].
  simpl. unfold setitem_true.
  destruct (grid_size g) as [[nx ny] nz].
  rewrite ravel_unravel by done.
  apply iter_empty_scan_insert. lia.
Qed.

Lemma iter_empty_from_mark g p idx p' fuel p'' :
  iter_empty_next g p = Some (idx, p') → (p' ≤ p'')%nat →
  iter_empty_from (mark g idx) p'' fuel = iter_empty_from g p'' fuel.
Proof.
  intros Hn. revert p''. induction fuel as [|fuel IH]; intros p'' Hp; [done|].
  simpl. rewrite (iter_empty_next_mark _ _ _ _ _ Hn Hp).
  destruct (iter_empty_next g p'') as [[idx' q']|] eqn:E; [|done].
  f_equal. apply IH.
  destruct (iter_empty_next_Some _ _ _ _ E) as (? & ? & -> & _). lia.
Qed.

Lemma iter_empty_from_step g g' p idx p' fuel p'' :
  iter_empty_next g p = Some (idx, p') →
  classify_step es min_c vsize g idx = inr g' → (p' ≤ p'')%nat →
  iter_empty_from g' p'' fuel = iter_empty_from g p'' fuel.
Proof.
  intros Hn Hs Hp. destruct (classify_step_inr _ _ _ Hs) as [-> | ->]; [done|].
  by eapply iter_empty_from_mark.
Qed.

(** The loop that shares the grid with its generator does what the loop
    over a list made beforehand does: same grid, same indices in the same
    order, same exception. *)
Lemma classify_from_snapshot fuel g p seen :
  classify_from es min_c vsize g p fuel seen =
  classify_list es min_c vsize g (iter_empty_from g p fuel) seen.
Proof.
  revert g p seen. induction fuel as [|fuel IH]; intros g p seen; [done|].
  simpl. destruct (iter_empty_next g p) as [[idx p']|] eqn:E; [|done].
  simpl. destruct (classify_step es min_c vsize g idx) as [e|g'] eqn:Es; [done|].
  rewrite IH. by rewrite (iter_empty_from_step _ _ _ _ _ _ _ E Es).
Qed.

Lemma classify_grid_snapshot g :
  classify_grid es min_c vsize g = classify_snapshot es min_c vsize g.
Proof. apply classify_from_snapshot. Qed.

End Sweep.

Section Raise.
Context {numeric : Numeric}.
Variables (min_c : Vec3) (vsize : float).

(** The loop over the edges raises on its first edge. *)
Lemma count_loop_cons edge es center count :
  count_loop (edge :: es) center count = inl AttributeError.
Proof. done. Qed.

Lemma classify_step_edgeless g idx : classify_step [] min_c vsize g idx = inr g.
Proof. done. Qed.

Lemma classify_step_edges edge es g idx :
  classify_step (edge :: es) min_c vsize g idx = inl AttributeError.
Proof. done. Qed.

Lemma classify_list_edgeless g todo seen :
  classify_list [] min_c vsize g todo seen = (g, seen ++ todo, None).
Proof.
  revert seen. induction todo as [|idx todo IH]; intros seen.
  - by rewrite app_nil_r.
  - simpl. rewrite IH. by rewrite <- app_assoc.
Qed.

(** Without edges the loop runs its body on every empty voxel and sets
    none. *)
Lemma classify_grid_edgeless g :
  classify_grid [] min_c vsize g = (g, iter_empty g, None).
Proof.
  rewrite classify_grid_snapshot. unfold classify_snapshot.
  by rewrite classify_list_edgeless.
Qed.

(** With an edge the loop is left by [AttributeError] in the body of the
    first voxel the generator yields; if it yields none, the loop ends at
    once. *)
Lemma classify_grid_edges edge es g :
  classify_grid (edge :: es) min_c vsize g =
  match iter_empty g with
  | [] => (g, [], None)
  | idx :: _ => (g, [idx], Some AttributeError)
  end.
Proof.
  rewrite classify_grid_snapshot. unfold classify_snapshot.
  by destruct (iter_empty g).
Qed.

(** The loop never sets a voxel. *)
Lemma classify_grid_keeps_grid es g :
  (classify_grid es min_c vsize g).1.1 = g.
Proof.
  destruct es as [|edge es].
  - by rewrite classify_grid_edgeless.
  - rewrite classify_grid_edges. by destruct (iter_empty g).
Qed.

End Raise.

(** ** Emission *)

Section Emit.
Context {numeric : Numeric} {blender : Blender}.
Variables (min_c : Vec3) (vsize : float) (coll : string).

Lemma for_items_nothing_set props items c :
  set_items items = [] →
  for_items (emit_voxel props min_c vsize coll) items c = (c, inr tt).
Proof.
  revert c. induction items as [|[idx filled] items IH]; intros c Hs; [done|].
  rewrite set_items_cons in Hs. destruct filled; [done|].
  simpl. unfold op_bind. simpl. by apply IH.
Qed.

(** On a grid without a set voxel the emission loop does nothing. *)
Lemma emit_grid_nothing props g c :
  filled_indices g = [] → emit_grid props min_c vsize coll g c = (c, inr tt).
Proof. apply for_items_nothing_set. Qed.

(** The loop reads [use_boxes] and nothing else of the property group, and
    does not touch the group of the host state. *)
Lemma emit_voxel_set_props props props' q c item :
  VCG_Props.use_boxes props = VCG_Props.use_boxes props' →
  emit_voxel props min_c vsize coll item (set_vcg_props q c) =
  (set_vcg_props q (emit_voxel props' min_c vsize coll item c).1,
   (emit_voxel props' min_c vsize coll item c).2).
Proof.
  intros E. destruct item as [idx filled]. unfold emit_voxel. rewrite E.
  destruct filled; [|done]. cbn [negb].
  destruct (VCG_Props.use_boxes props'); [|done].
  unfold op_bind, primitive_cube_add, set_name, collection_objects_link,
    scene_objects_unlink, link_to_active_collection.
  cbn [active_object set_active_object set_vcg_props collection data_objects
       set_data_objects data_collections set_data_collections scene_objects
       set_scene_objects].
  destruct (collection c) as [n|];
    cbn [active_object set_active_object set_vcg_props collection data_objects
         set_data_objects data_collections set_data_collections scene_objects
         set_scene_objects];
    repeat (case_decide; cbn [fst snd set_vcg_props data_objects
       data_collections scene_objects set_scene_objects set_data_collections]);
    done.
Qed.

Lemma for_items_set_props props props' q items c :
  VCG_Props.use_boxes props = VCG_Props.use_boxes props' →
  for_items (emit_voxel props min_c vsize coll) items (set_vcg_props q c) =
  (set_vcg_props q (for_items (emit_voxel props' min_c vsize coll) items c).1,
   (for_items (emit_voxel props' min_c vsize coll) items c).2).
Proof.
  intros E. revert c. induction items as [|item items IH]; intros c; [done|].
  simpl. unfold op_bind. rewrite (emit_voxel_set_props props props' q c item E).
  destruct (emit_voxel props' min_c vsize coll item c) as [c' [e|[]]]; [done|].
  simpl. apply IH.
Qed.

End Emit.

(** ** The run as a whole *)

Section Run.
Context {numeric : Numeric} {blender : Blender}.

Lemma world_edges_edgeless obj : edges (data obj) = [] → world_edges obj = [].
Proof.
  intros E. unfold world_edges, bm_edges, transform, from_mesh. simpl.
  by rewrite E.
Qed.

Lemma ensure_collection_fields c :
  data_objects (ensure_collection c) = data_objects c ∧
  scene_objects (ensure_collection c) = scene_objects c ∧
  reports (ensure_collection c) = reports c ∧
  active_object (ensure_collection c) = active_object c ∧
  mode (ensure_collection c) = mode c ∧
  vcg_props (ensure_collection c) = vcg_props c ∧
  collection (ensure_collection c) = collection c.
Proof.
  unfold ensure_collection. by destruct (data_collections c !! VCG_Colliders).
Qed.

Lemma ensure_collection_lookup c :
  data_collections (ensure_collection c) !! VCG_Colliders =
  Some (default [] (data_collections c !! VCG_Colliders)).
Proof.
  unfold ensure_collection.
  destruct (data_collections c !! VCG_Colliders) as [l|] eqn:E; [done|].
  simpl. apply lookup_insert_eq.
Qed.

Lemma ensure_collection_lookup_ne c n :
  n ≠ VCG_Colliders →
  data_collections (ensure_collection c) !! n = data_collections c !! n.
Proof.
  intros Hn. unfold ensure_collection.
  destruct (data_collections c !! VCG_Colliders) as [l|] eqn:E; [done|].
  simpl. by apply lookup_insert_ne.
Qed.

Lemma ensure_collection_children c :
  scene_children (ensure_collection c) =
  scene_children c ++
  match data_collections c !! VCG_Colliders with
  | Some _ => []
  | None => [VCG_Colliders]
  end.
Proof.
  unfold ensure_collection.
  destruct (data_collections c !! VCG_Colliders); [|done].
  by rewrite app_nil_r.
Qed.

Lemma ensure_collection_present c l :
  data_collections c !! VCG_Colliders = Some l → ensure_collection c = c.
Proof. intros E. unfold ensure_collection. by rewrite E. Qed.

Lemma ensure_collection_set_props p c :
  ensure_collection (set_vcg_props p c) = set_vcg_props p (ensure_collection c).
Proof.
  unfold ensure_collection.
  change (data_collections (set_vcg_props p c)) with (data_collections c).
  by destruct (data_collections c !! VCG_Colliders).
Qed.

(** The guard of lines 82-84. *)
Lemma execute_cancelled c :
  not_a_mesh_selection c →
  execute c =
  mkOutcome (inr "CANCELLED") (report "ERROR" "Select a mesh object." c) None [].
Proof.
  intros [Hn | (obj & Ho & Ht)]; unfold execute.
  - by rewrite Hn.
  - rewrite Ho. by rewrite (proj2 (String.eqb_neq _ _) Ht).
Qed.

(** A mesh selection whose grid cannot be built: the exception of line 98
    leaves the operator after the first report and the mode switch. *)
Lemma execute_no_grid c obj e :
  active_obj c = Some obj → type obj = "MESH" →
  fresh_grid obj (VCG_Props.voxel_size (vcg_props c)) = inl e →
  execute c = mkOutcome (inl e) (started c) None [].
Proof.
  intros Ha Ht Hg. unfold execute. rewrite Ha, Ht.
  rewrite String.eqb_refl. cbn [negb].
  unfold fresh_grid, world_min, world_max in Hg. by rewrite Hg.
Qed.

(** A mesh selection with an edge and a grid with a voxel: the body of the
    classification loop raises on the first voxel; the collection has been
    looked up or made by then. *)
Lemma execute_raises c obj g0 idx rest :
  active_obj c = Some obj → type obj = "MESH" →
  fresh_grid obj (VCG_Props.voxel_size (vcg_props c)) = inr g0 →
  world_edges obj ≠ [] → iter_empty g0 = idx :: rest →
  execute c =
  mkOutcome (inl AttributeError) (ensure_collection (started c)) (Some g0) [idx].
Proof.
  intros Ha Ht Hg He Hi. unfold execute. rewrite Ha, Ht.
  rewrite String.eqb_refl. cbn [negb].
  unfold fresh_grid, world_min, world_max in Hg. rewrite Hg.
  unfold world_edges in He.
  destruct (bm_edges _) as [|edge es]; [done|].
  by rewrite classify_grid_edges, Hi.
Qed.

(** A mesh selection without edges, or with a grid without voxels: nothing
    is set, nothing is emitted, the run finishes. *)
Lemma execute_finishes c obj g0 :
  active_obj c = Some obj → type obj = "MESH" →
  fresh_grid obj (VCG_Props.voxel_size (vcg_props c)) = inr g0 →
  world_edges obj = [] ∨ iter_empty g0 = [] →
  execute c =
  mkOutcome (inr "FINISHED")
    (report "INFO" "Voxel primitives placed." (ensure_collection (started c)))
    (Some g0) (iter_empty g0).
Proof.
  intros Ha Ht Hg He. unfold execute. rewrite Ha, Ht.
  rewrite String.eqb_refl. cbn [negb].
  pose proof Hg as Hg'. unfold fresh_grid, world_min, world_max in Hg'.
  rewrite Hg'.
  destruct (VoxelGrid_init_spec _ _ _ _ Hg) as (_ & _ & _ & Hz).
  assert (Hc : classify_grid
                 (bm_edges (transform (matrix_world obj) (from_mesh (data obj))))
                 (min_of_bounds (vmap (Matrix_mul (matrix_world obj)) (bound_box obj)))
                 (VCG_Props.voxel_size (vcg_props c)) g0 =
               (g0, iter_empty g0, None)).
  { fold (world_edges obj).
    destruct (world_edges obj) as [|edge es] eqn:Ee.
    - apply classify_grid_edgeless.
    - destruct He as [He|He]; [done|]. by rewrite classify_grid_edges, He. }
  rewrite Hc. by rewrite emit_grid_nothing by by apply filled_indices_all_false.
Qed.

(** Every run is one of these four. *)
Lemma execute_cases c :
  execute c =
    mkOutcome (inr "CANCELLED") (report "ERROR" "Select a mesh object." c) None [] ∨
  (∃ e, execute c = mkOutcome (inl e) (started c) None []) ∨
  (∃ g0 idx,
     grid g0 = replicate (shape_cells (grid_size g0)) false ∧
     execute c =
     mkOutcome (inl AttributeError) (ensure_collection (started c)) (Some g0) [idx]) ∨
  (∃ g0,
     grid g0 = replicate (shape_cells (grid_size g0)) false ∧
     execute c =
     mkOutcome (inr "FINISHED")
       (report "INFO" "Voxel primitives placed." (ensure_collection (started c)))
       (Some g0) (iter_empty g0)).
Proof.
  destruct (active_obj c) as [obj|] eqn:Ha;
    [|left; apply execute_cancelled; by left].
  destruct (decide (type obj = "MESH")) as [Ht|Ht];
    [|left; apply execute_cancelled; right; eauto].
  destruct (fresh_grid obj (VCG_Props.voxel_size (vcg_props c))) as [e|g0] eqn:Hg.
  { right; left. exists e. by eapply execute_no_grid. }
  destruct (VoxelGrid_init_spec _ _ _ _ Hg) as (_ & _ & _ & Hz).
  destruct (world_edges obj) as [|edge es] eqn:Ee.
  { do 3 right. exists g0. split; [done|]. eapply execute_finishes; eauto. }
  destruct (iter_empty g0) as [|idx rest] eqn:Ei.
  { do 3 right. exists g0. split; [done|].
    exact (execute_finishes c obj g0 Ha Ht Hg (or_intror Ei)). }
  right; right; left. exists g0, idx. split; [done|].
  eapply execute_raises; eauto. by rewrite Ee.
Qed.

(** No run adds an object, touches the property group, the selection, the
    root collection of the scene or the objects of a collection. *)
Lemma execute_frame c :
  data_objects (out_context (execute c)) = data_objects c ∧
  vcg_props (out_context (execute c)) = vcg_props c ∧
  active_object (out_context (execute c)) = active_object c ∧
  scene_objects (out_context (execute c)) = scene_objects c ∧
  collection (out_context (execute c)) = collection c.
Proof.
  destruct (ensure_collection_fields (started c)) as (Ho & Hs & _ & Ha & _ & Hp & Hc).
  destruct (execute_cases c) as [E | [(e & E) | [(g0 & idx & _ & E) | (g0 & _ & E)]]];
    rewrite E; cbn [out_context]; done.
Qed.


(** [execute] reads two fields of the property group, [voxel_size] and
    [use_boxes]: a group that agrees on them gives the same run. *)
Lemma execute_set_props p c :
  VCG_Props.voxel_size p = VCG_Props.voxel_size (vcg_props c) →
  VCG_Props.use_boxes p = VCG_Props.use_boxes (vcg_props c) →
  execute (set_vcg_props p c) = outcome_with_props p (execute c).
Proof.
  intros Ev Eb. unfold execute.
  change (active_obj (set_vcg_props p c)) with (active_obj c).
  destruct (active_obj c) as [obj|]; [|done].
  destruct (negb (String.eqb (type obj) "MESH")); [done|].
  change (vcg_props (set_vcg_props p c)) with p. rewrite Ev.
  destruct (VoxelGrid_init _ _ _) as [e|g0]; [done|].
  destruct (classify_grid _ _ _ _) as [[g seen] [e|]]; unfold outcome_with_props.
  - cbn [out_result out_context out_voxel_grid out_classified]. f_equal.
    apply (ensure_collection_set_props p (started c)).
  - change (mode_set "OBJECT" (report "INFO"
              "Starting voxel-based primitive fitting..." (set_vcg_props p c)))
      with (set_vcg_props p (started c)).
    rewrite ensure_collection_set_props.
    unfold emit_grid.
    rewrite (for_items_set_props _ _ _ p (vcg_props c) p _ _ Eb).
    fold (started c).
    destruct (for_items _ _ _) as [c' [e|[]]]; done.
Qed.

End Run.

(** * The claims *)

(** ** The grid *)

(** C2. [is_marked] answers [True] for every index with a component that is
    negative or not below the extent of its axis, whatever the buffer holds;
    for an index in range (of a grid whose buffer matches its shape) it
    answers with the value stored in the cell of that index. *)
Theorem C2_is_marked_boundary_solid {numeric : Numeric} (g : VoxelGrid) nx ny nz i j k :
  grid_size g = (nx, ny, nz) →
  ((i < 0 ∨ nx ≤ i ∨ j < 0 ∨ ny ≤ j ∨ k < 0 ∨ nz ≤ k) →
     is_marked g (i, j, k) = true) ∧
  (wf_grid g → 0 ≤ i < nx → 0 ≤ j < ny → 0 ≤ k < nz →
     grid g !! ravel (nx, ny, nz) (i, j, k) = Some (is_marked g (i, j, k))).
Proof.
  intros Es. split.
  - intros Hout. unfold is_marked. rewrite Es.
    by rewrite (proj2 (in_range_false nx ny nz i j k) Hout).
  - intros Hwf Hi Hj Hk. rewrite <- Es. apply is_marked_lookup; [done|].
    rewrite Es. by apply in_range_spec.
Qed.

Lemma C2_is_marked_boundary_solid_witness :
  is_marked Scenes.sample_grid (2, 0, -1) = true ∧
  grid Scenes.sample_grid !! ravel (2, 2, 2) (0, 1, 1) =
    Some (is_marked Scenes.sample_grid (0, 1, 1)).
Proof.
  split.
  - apply (C2_is_marked_boundary_solid Scenes.sample_grid 2 2 2 2 0 (-1));
      [reflexivity | lia].
  - apply (C2_is_marked_boundary_solid Scenes.sample_grid 2 2 2 0 1 1);
      [reflexivity | reflexivity | lia | lia | lia].
Defined.

(** C6. On every grid, [iter_empty] yields exactly the indices in range whose
    cell is not set, each once, in row-major order (it is the row-major
    enumeration of the shape with the set cells left out); the sequence is
    determined by the shape and the buffer, so enumerating again an
    unchanged grid yields it again. *)
Theorem C6_iter_empty_enumeration {numeric : Numeric} (g : VoxelGrid) :
  wf_grid g →
  (∀ idx, idx ∈ iter_empty g ↔
          in_range (grid_size g) idx = true ∧ is_marked g idx = false) ∧
  NoDup (iter_empty g) ∧
  StronglySorted index_lt (iter_empty g) ∧
  iter_empty g = filter (λ idx, is_marked g idx = false) (ndindex (grid_size g)) ∧
  (∀ g', grid_size g' = grid_size g → grid g' = grid g →
         iter_empty g' = iter_empty g).
Proof.
  intros Hwf. rewrite (iter_empty_filter g Hwf).
  assert (Hs : StronglySorted index_lt
                 (filter (λ idx, is_marked g idx = false) (ndindex (grid_size g))))
    by apply StronglySorted_filter, ndindex_sorted.
  split_and!.
  - intros idx. rewrite list_elem_of_filter, elem_of_ndindex. tauto.
  - by apply StronglySorted_index_lt_NoDup.
  - done.
  - done.
  - intros g' Es Eg. rewrite <- (iter_empty_filter g Hwf).
    rewrite !iter_empty_spec. by rewrite Es, Eg.
Qed.

Lemma C6_iter_empty_enumeration_witness :
  iter_empty Scenes.sample_grid =
  [(0, 0, 1); (0, 1, 0); (1, 0, 0); (1, 0, 1); (1, 1, 0); (1, 1, 1)] ∧
  NoDup (iter_empty Scenes.sample_grid) ∧
  StronglySorted index_lt (iter_empty Scenes.sample_grid).
Proof.
  assert (Hwf : wf_grid Scenes.sample_grid) by reflexivity.
  destruct (C6_iter_empty_enumeration Scenes.sample_grid Hwf)
    as (_ & Hnd & Hs & _).
  split; [reflexivity | split; assumption].
Defined.

(** ** The classification loop *)

Lemma unravel_0 shape : unravel shape 0 = (0, 0, 0).
Proof.
  destruct shape as [[nx ny] nz]. unfold unravel.
  change (Z.of_nat 0) with 0. by rewrite !Zdiv_0_l, !Zmod_0_l.
Qed.

Lemma ndindex_head shape :
  (0 < shape_cells shape)%nat →
  ∃ rest, ndindex shape = (0, 0, 0) :: rest.
Proof.
  unfold ndindex. destruct (shape_cells shape) as [|n]; [lia|]. intros _.
  simpl. rewrite unravel_0. eauto.
Qed.

Lemma new_reports_app {numeric : Numeric} {blender : Blender} (c : Context) out l :
  reports (out_context out) = reports c ++ l → new_reports c out = l.
Proof. intros E. unfold new_reports. rewrite E. apply drop_app_length. Qed.

Lemma created_objects_none {numeric : Numeric} {blender : Blender} (c : Context) :
  created_objects c (execute c) = [].
Proof.
  unfold created_objects. rewrite (proj1 (execute_frame c)). apply drop_all.
Qed.

Lemma no_voxel_marked_all_false {numeric : Numeric} {blender : Blender}
    (out : Outcome) g :
  out_voxel_grid out = Some g →
  grid g = replicate (shape_cells (grid_size g)) false →
  no_voxel_marked out.
Proof.
  intros Eg Hz. exists g. split; [done|].
  intros idx R. by apply is_marked_all_false.
Qed.

(** C1. The classification loop never classifies a voxel.  Its body calls
    [calc_center_median] on an edge, and edges have no such method: for
    every mesh object with at least one edge whose grid has at least one
    voxel, the run is left by [AttributeError] in the body of the first
    voxel, (0, 0, 0).  Nothing has been counted and no voxel is set; the
    start report has been issued and nothing else reported, and no object
    has been created. *)
Theorem C1_classification_raises {numeric : Numeric} {blender : Blender}
    (c : Context) obj g0 :
  active_obj c = Some obj → type obj = "MESH" →
  fresh_grid obj (VCG_Props.voxel_size (vcg_props c)) = inr g0 →
  world_edges obj ≠ [] → (0 < shape_cells (grid_size g0))%nat →
  let out := execute c in
  out_result out = inl AttributeError ∧
  out_voxel_grid out = Some g0 ∧
  no_voxel_marked out ∧
  out_classified out = [(0, 0, 0)] ∧
  created_objects c out = [] ∧
  new_reports c out = [("INFO", "Starting voxel-based primitive fitting...")].
Proof.
  intros Ha Ht Hg He Hn out.
  destruct (VoxelGrid_init_spec _ _ _ _ Hg) as (_ & _ & _ & Hz).
  destruct (ndindex_head _ Hn) as [rest Hr].
  assert (Hi : iter_empty g0 = (0, 0, 0) :: rest)
    by (by rewrite iter_empty_all_false).
  assert (E := execute_raises c obj g0 _ _ Ha Ht Hg He Hi). fold out in E.
  split_and!.
  - by rewrite E.
  - by rewrite E.
  - apply (no_voxel_marked_all_false out g0); [by rewrite E | done].
  - by rewrite E.
  - apply created_objects_none.
  - apply new_reports_app. rewrite E. cbn [out_context].
    by rewrite (proj1 (proj2 (proj2 (ensure_collection_fields (started c))))).
Qed.

Lemma C1_classification_raises_witness :
  out_result (execute Scenes.cube_scene) = inl AttributeError ∧
  (grid_size <$> out_voxel_grid (execute Scenes.cube_scene)) = Some (2, 2, 2) ∧
  out_classified (execute Scenes.cube_scene) = [(0, 0, 0)].
Proof.
  destruct (C1_classification_raises Scenes.cube_scene Scenes.cube Scenes.cube_grid)
    as (Hr & Hg & _ & Hc & _).
  - reflexivity.
  - reflexivity.
  - reflexivity.
  - discriminate.
  - change (0 < 8)%nat. lia.
  - split_and!; [exact Hr | rewrite Hg; reflexivity | exact Hc].
Defined.

(** C10.  The loop of lines 110-120 marks voxels of the grid its generator
    is still reading.  Whatever the edges and the grid, it does what the loop
    run over the list of empty voxels made beforehand does: same grid, same
    indices in the same order, same exception.  With an edge, that is the
    exception raised in the body of the first voxel yielded: the loop stops
    there and the other voxels are not classified.  Without edges the body
    runs once on every empty voxel.  For the default cube at voxel size 1
    the grid has 8 voxels and the body is entered on one. *)
Theorem C10_sweep_stops_at_first_voxel :
  (∀ (numeric : Numeric) es min_c vsize (g : VoxelGrid),
     classify_grid es min_c vsize g = classify_snapshot es min_c vsize g) ∧
  (∀ (numeric : Numeric) edge es min_c vsize (g : VoxelGrid),
     classify_grid (edge :: es) min_c vsize g =
     match iter_empty g with
     | [] => (g, [], None)
     | idx :: _ => (g, [idx], Some AttributeError)
     end) ∧
  (∀ (numeric : Numeric) min_c vsize (g : VoxelGrid),
     classify_grid [] min_c vsize g = (g, iter_empty g, None)) ∧
  (ndindex ∘ grid_size <$> out_voxel_grid (execute Scenes.cube_scene)) =
    Some [(0, 0, 0); (0, 0, 1); (0, 1, 0); (0, 1, 1);
          (1, 0, 0); (1, 0, 1); (1, 1, 0); (1, 1, 1)] ∧
  out_classified (execute Scenes.cube_scene) = [(0, 0, 0)] ∧
  out_result (execute Scenes.cube_scene) = inl AttributeError.
Proof.
  split; [intros; apply classify_grid_snapshot|].
  split; [intros; apply classify_grid_edges|].
  split; [intros; apply classify_grid_edgeless|].
  split_and!; reflexivity.
Qed.

(** ** The operator *)


(** C8. Two runs that differ only in [voxel_resolution] (any two values of
    its range 4..256) end the same way (same status set or same exception),
    build the same grid, visit the same voxels and leave the same host
    state: the same objects (count, names, meshes, places), collections,
    links and reports. *)
Theorem C8_voxel_resolution_not_consumed {numeric : Numeric} {blender : Blender}
    (c : Context) r1 r2 :
  4 ≤ r1 ≤ 256 → 4 ≤ r2 ≤ 256 →
  let run r :=
    execute (set_vcg_props (VCG_Props.set_voxel_resolution r (vcg_props c)) c) in
  out_result (run r1) = out_result (run r2) ∧
  out_voxel_grid (run r1) = out_voxel_grid (run r2) ∧
  out_classified (run r1) = out_classified (run r2) ∧
  data_objects (out_context (run r1)) = data_objects (out_context (run r2)) ∧
  data_collections (out_context (run r1)) = data_collections (out_context (run r2)) ∧
  scene_children (out_context (run r1)) = scene_children (out_context (run r2)) ∧
  scene_objects (out_context (run r1)) = scene_objects (out_context (run r2)) ∧
  active_object (out_context (run r1)) = active_object (out_context (run r2)) ∧
  mode (out_context (run r1)) = mode (out_context (run r2)) ∧
  reports (out_context (run r1)) = reports (out_context (run r2)) ∧
  collection (out_context (run r1)) = collection (out_context (run r2)).
Proof.
  intros _ _ run. unfold run.
  rewrite !execute_set_props by done. done.
Qed.

Lemma C8_voxel_resolution_not_consumed_witness :
  data_objects (out_context (execute
    (set_vcg_props (VCG_Props.set_voxel_resolution 4
                      (vcg_props Scenes.tetra_scene)) Scenes.tetra_scene))) =
  data_objects (out_context (execute
    (set_vcg_props (VCG_Props.set_voxel_resolution 256
                      (vcg_props Scenes.tetra_scene)) Scenes.tetra_scene))).
Proof.
  apply (C8_voxel_resolution_not_consumed Scenes.tetra_scene 4 256); lia.
Defined.

(** C3, as the code has it.  When nothing is selected, or the selected
    object is not a mesh, [execute] reports the error
    ["Select a mesh object."] and returns ["CANCELLED"] having changed
    nothing else: no collection, no grid, no object. *)
Theorem C3_refuses_non_mesh_selection {numeric : Numeric} {blender : Blender}
    (c : Context) :
  not_a_mesh_selection c →
  aborts_cleanly c ∧
  execute c =
    mkOutcome (inr "CANCELLED") (report "ERROR" "Select a mesh object." c) None [].
Proof.
  intros H. pose proof (execute_cancelled c H) as E.
  split; [|done]. unfold aborts_cleanly. rewrite E. cbn.
  split_and!; eauto.
Qed.

Lemma C3_refuses_non_mesh_selection_witness :
  aborts_cleanly (Scenes.scene_unselected Scenes.tetra (Scenes.props 1 true true false false)) ∧
  aborts_cleanly (Scenes.scene_with Scenes.camera (Scenes.props 1 true true false false)).
Proof.
  split.
  - apply (C3_refuses_non_mesh_selection
             (Scenes.scene_unselected Scenes.tetra (Scenes.props 1 true true false false))).
    left. reflexivity.
  - apply (C3_refuses_non_mesh_selection
             (Scenes.scene_with Scenes.camera (Scenes.props 1 true true false false))).
    right. exists Scenes.camera. split; [reflexivity | discriminate].
Defined.

(** C3, as stated, fails: a selected mesh object with zero polygons violates
    the stated precondition, yet the run does not abort: it finishes,
    having made the collection and a grid. *)
Lemma C3_counterexample_zero_polygons :
  precondition_violated Scenes.empty_scene ∧
  ¬ aborts_cleanly Scenes.empty_scene ∧
  out_result (execute Scenes.empty_scene) = inr "FINISHED" ∧
  data_collections Scenes.empty_scene !! VCG_Colliders = None ∧
  data_collections (out_context (execute Scenes.empty_scene)) !! VCG_Colliders
    = Some [] ∧
  out_voxel_grid (execute Scenes.empty_scene) = Some Scenes.cube_grid.
Proof.
  assert (E : out_result (execute Scenes.empty_scene) = inr "FINISHED")
    by reflexivity.
  split_and!.
  - right. exists Scenes.empty_mesh. split; [reflexivity | by right].
  - intros (Hs & _). rewrite E in Hs. discriminate Hs.
  - exact E.
  - reflexivity.
  - reflexivity.
  - reflexivity.
Qed.

(** C7, as the code has it.  When the selected mesh has no edges (hence no
    polygons) and the grid of line 98 is built, the body of the
    classification loop runs once on every voxel and sets none, the run
    finishes and adds no object.  Its two reports are the fixed messages of
    every finished run; the last one is ["Voxel primitives placed."], no
    count is reported. *)
Theorem C7_edgeless_mesh_yields_nothing {numeric : Numeric} {blender : Blender}
    (c : Context) obj g0 :
  active_obj c = Some obj → type obj = "MESH" → edges (data obj) = [] →
  fresh_grid obj (VCG_Props.voxel_size (vcg_props c)) = inr g0 →
  let out := execute c in
  out_result out = inr "FINISHED" ∧
  no_voxel_marked out ∧
  out_classified out = ndindex (grid_size g0) ∧
  created_objects c out = [] ∧
  data_objects (out_context out) = data_objects c ∧
  reports (out_context out) =
    reports c ++ [("INFO", "Starting voxel-based primitive fitting...");
                  ("INFO", "Voxel primitives placed.")] ∧
  completion_report out = Some ("INFO", "Voxel primitives placed.").
Proof.
  intros Ha Ht He Hg out.
  destruct (VoxelGrid_init_spec _ _ _ _ Hg) as (_ & _ & _ & Hz).
  assert (E := execute_finishes c obj g0 Ha Ht Hg
                 (or_introl (world_edges_edgeless obj He))).
  fold out in E.
  assert (Hr : reports (out_context out) =
               reports c ++ [("INFO", "Starting voxel-based primitive fitting...");
                             ("INFO", "Voxel primitives placed.")]).
  { rewrite E. cbn [out_context report set_reports reports].
    rewrite (proj1 (proj2 (proj2 (ensure_collection_fields (started c))))).
    cbn. by rewrite <- app_assoc. }
  split_and!.
  - by rewrite E.
  - apply (no_voxel_marked_all_false out g0); [by rewrite E | done].
  - rewrite E. cbn [out_classified]. by apply iter_empty_all_false.
  - apply created_objects_none.
  - apply execute_frame.
  - done.
  - unfold completion_report. rewrite Hr.
    by rewrite last_app.
Qed.

Lemma C7_edgeless_mesh_yields_nothing_witness :
  out_result (execute Scenes.empty_scene) = inr "FINISHED" ∧
  created_objects Scenes.empty_scene (execute Scenes.empty_scene) = [].
Proof.
  destruct (C7_edgeless_mesh_yields_nothing Scenes.empty_scene Scenes.empty_mesh
              Scenes.cube_grid) as (Hs & _ & _ & Hc & _).
  - reflexivity.
  - reflexivity.
  - reflexivity.
  - reflexivity.
  - split; assumption.
Defined.

(** C7, as stated, fails.  The run on the mesh without any geometry
    finishes with no voxel set and no object created, but does not report
    that nothing was generated: it adds the two fixed reports of every
    finished run, and the last says that primitives were placed. *)
Lemma C7_counterexample_report_of_empty_mesh :
  empty_mesh_data (data Scenes.empty_mesh) ∧
  ¬ empty_mesh_run_reports_zero Scenes.empty_scene ∧
  out_result (execute Scenes.empty_scene) = inr "FINISHED" ∧
  created_objects Scenes.empty_scene (execute Scenes.empty_scene) = [] ∧
  new_reports Scenes.empty_scene (execute Scenes.empty_scene) =
    [("INFO", "Starting voxel-based primitive fitting...");
     ("INFO", "Voxel primitives placed.")] ∧
  says_nothing_generated "Voxel primitives placed." = false.
Proof.
  assert (E : new_reports Scenes.empty_scene (execute Scenes.empty_scene) =
              [("INFO", "Starting voxel-based primitive fitting...");
               ("INFO", "Voxel primitives placed.")]) by reflexivity.
  assert (Hd : empty_mesh_data (data Scenes.empty_mesh))
    by (unfold empty_mesh_data; split_and!; reflexivity).
  split_and!; [exact Hd | | reflexivity | reflexivity | exact E | reflexivity].
  intros H.
  destruct (H Scenes.empty_mesh eq_refl eq_refl Hd)
    as (_ & _ & _ & (level & msg & Hin & Hsay)).
  rewrite E in Hin.
  apply elem_of_cons in Hin as [[= -> ->] | Hin]; [discriminate Hsay|].
  apply elem_of_cons in Hin as [[= -> ->] | Hin]; [discriminate Hsay|].
  by apply elem_of_nil in Hin.
Qed.

(** ** Flags the operator does not read *)

(** C4.  The flag [merge_output] is not read: whatever its value the run
    is the same.  No run creates an object, so none creates a merged mesh.
    With the flag set, the run on the default cube is left by
    [AttributeError] (see C1) and the run on the mesh without geometry
    finishes; neither adds an object. *)
Theorem C4_merge_output_not_consumed :
  (∀ (numeric : Numeric) (blender : Blender) (c : Context) b,
     execute (set_vcg_props (VCG_Props.set_merge_output b (vcg_props c)) c) =
     outcome_with_props (VCG_Props.set_merge_output b (vcg_props c)) (execute c)) ∧
  (∀ (numeric : Numeric) (blender : Blender) (c : Context),
     created_objects c (execute c) = []) ∧
  VCG_Props.merge_output (vcg_props Scenes.cube_merge_scene) = true ∧
  out_result (execute Scenes.cube_merge_scene) = inl AttributeError ∧
  created_objects Scenes.cube_merge_scene (execute Scenes.cube_merge_scene) = [] ∧
  VCG_Props.merge_output (vcg_props Scenes.empty_merge_scene) = true ∧
  out_result (execute Scenes.empty_merge_scene) = inr "FINISHED" ∧
  created_objects Scenes.empty_merge_scene (execute Scenes.empty_merge_scene) = [].
Proof.
  split; [intros numeric blender c b; by apply execute_set_props|].
  split; [intros numeric blender c; apply created_objects_none|].
  split_and!; reflexivity.
Qed.


(** * Further properties of the grid *)

(** ** [mark] *)



(** X2. Marking is idempotent and the order of two marks does not matter. *)
Theorem mark_idempotent_commutative {numeric : Numeric} (g : VoxelGrid) a b :
  mark (mark g a) a = mark g a ∧
  mark (mark g a) b = mark (mark g b) a.
Proof.
  destruct (in_range (grid_size g) a) eqn:Ra.
  - rewrite (mark_in_range g a Ra).
    destruct (in_range (grid_size g) b) eqn:Rb.
    + rewrite (mark_in_range g b Rb), !mark_in_range by done.
      unfold set_grid. simpl. split; f_equal.
      * apply list_insert_insert_eq.
      * destruct (decide (ravel (grid_size g) a = ravel (grid_size g) b))
          as [->|Hne]; [done|].
        by apply list_insert_insert_ne.
    + rewrite (mark_out_of_range g b Rb).
      rewrite (mark_in_range (set_grid _ _) a) by done.
      rewrite (mark_out_of_range (set_grid _ _) b) by done.
      rewrite (mark_in_range g a Ra).
      split; [|done]. unfold set_grid. simpl. f_equal.
      apply list_insert_insert_eq.
  - rewrite (mark_out_of_range g a Ra), (mark_out_of_range g a Ra).
    split; [done|]. symmetry. apply mark_out_of_range.
    by rewrite grid_size_mark.
Qed.

(** ** Empty and filled voxels *)

(** X8. The voxels [iter_empty] yields and the voxels the emission loop
    does not skip split the grid: together they are all its indices, none
    is in both, and their numbers add up to the number of cells. *)
Theorem empty_and_filled_partition {numeric : Numeric} (g : VoxelGrid) :
  wf_grid g →
  iter_empty g ++ filled_indices g ≡ₚ ndindex (grid_size g) ∧
  (∀ idx, idx ∈ iter_empty g → idx ∉ filled_indices g) ∧
  (length (iter_empty g) + length (filled_indices g) =
   shape_cells (grid_size g))%nat.
Proof.
  intros Hwf.
  rewrite (iter_empty_filter g Hwf), (filled_indices_filter g Hwf).
  assert (Hc : filter (λ idx, is_marked g idx = true) (ndindex (grid_size g)) =
               filter (λ idx, ¬ is_marked g idx = false) (ndindex (grid_size g))).
  { apply list_filter_iff. intros idx. by destruct (is_marked g idx). }
  assert (Hp : filter (λ idx, is_marked g idx = false) (ndindex (grid_size g)) ++
               filter (λ idx, is_marked g idx = true) (ndindex (grid_size g))
               ≡ₚ ndindex (grid_size g)).
  { rewrite Hc. apply filter_app_complement. }
  split_and!.
  - done.
  - intros idx [He _]%list_elem_of_filter [Hf _]%list_elem_of_filter. congruence.
  - rewrite <- length_app, Hp. unfold ndindex.
    by rewrite length_fmap, length_seq.
Qed.

Lemma empty_and_filled_partition_witness :
  (length (iter_empty Scenes.sample_grid) +
   length (filled_indices Scenes.sample_grid) = 8)%nat.
Proof.
  assert (Hwf : wf_grid Scenes.sample_grid) by reflexivity.
  destruct (empty_and_filled_partition Scenes.sample_grid Hwf) as (_ & _ & Hl).
  exact Hl.
Defined.

(** * Further properties of the operator *)

(** X10. Whatever the selection, a run keeps the objects that were in the
    store, unchanged and at their places (it only appends), and does not
    touch the property group. *)
Theorem execute_keeps_store {numeric : Numeric} {blender : Blender} (c : Context) :
  (∃ new, data_objects (out_context (execute c)) = data_objects c ++ new) ∧
  (∀ i o, data_objects c !! i = Some o →
          data_objects (out_context (execute c)) !! i = Some o) ∧
  vcg_props (out_context (execute c)) = vcg_props c.
Proof.
  destruct (execute_frame c) as (Ho & Hp & _).
  split_and!; [exists []; by rewrite app_nil_r | | done].
  intros i o Hi. by rewrite Ho.
Qed.

Lemma execute_keeps_store_witness :
  data_objects (out_context (execute Scenes.tetra_scene)) !! 0%nat =
  Some Scenes.tetra.
Proof.
  apply (proj1 (proj2 (execute_keeps_store Scenes.tetra_scene))).
  reflexivity.
Defined.

Section Rerun.
Context {numeric : Numeric} {blender : Blender}.

(** The host state a run on a mesh selection leaves once the grid is
    built: the collection looked up or made, and the final report when the
    run finishes. *)
Lemma execute_mesh_context c obj g0 :
  active_obj c = Some obj → type obj = "MESH" →
  fresh_grid obj (VCG_Props.voxel_size (vcg_props c)) = inr g0 →
  out_voxel_grid (execute c) = Some g0 ∧
  ((out_result (execute c) = inl AttributeError ∧
    world_edges obj ≠ [] ∧ iter_empty g0 ≠ [] ∧
    out_context (execute c) = ensure_collection (started c)) ∨
   (out_result (execute c) = inr "FINISHED" ∧
    (world_edges obj = [] ∨ iter_empty g0 = []) ∧
    out_context (execute c) =
      report "INFO" "Voxel primitives placed." (ensure_collection (started c)))).
Proof.
  intros Ha Ht Hg.
  destruct (world_edges obj) as [|edge es] eqn:Ee.
  { rewrite (execute_finishes c obj g0 Ha Ht Hg) by (left; done).
    split; [done|]. right. split_and!; [done | by left | done]. }
  destruct (iter_empty g0) as [|idx rest] eqn:Ei.
  { rewrite (execute_finishes c obj g0 Ha Ht Hg) by (right; done).
    split; [done|]. right. split_and!; [done | by right | done]. }
  rewrite (execute_raises c obj g0 idx rest Ha Ht Hg) by (by rewrite ?Ee).
  split; [done|]. left. split_and!; done.
Qed.

Lemma ndindex_nil shape : ndindex shape = [] ↔ shape_cells shape = 0%nat.
Proof.
  unfold ndindex. destruct (shape_cells shape); [done|].
  simpl. split; intros; done.
Qed.

End Rerun.

(** X11. A run on a mesh object whose grid is built leaves a collection
    ["VCG_Colliders"], whether it finishes or is left by an exception in
    the classification loop: the one that was there, with its objects kept,
    or a new, empty one, linked under the scene.  No other collection
    changes and no object is linked to or unlinked from the root collection
    of the scene. *)
Theorem execute_ensures_collection {numeric : Numeric} {blender : Blender}
    (c : Context) obj g0 :
  active_obj c = Some obj → type obj = "MESH" →
  fresh_grid obj (VCG_Props.voxel_size (vcg_props c)) = inr g0 →
  let out := execute c in
  data_collections (out_context out) !! VCG_Colliders =
    Some (default [] (data_collections c !! VCG_Colliders)) ∧
  (∀ n, n ≠ VCG_Colliders →
        data_collections (out_context out) !! n = data_collections c !! n) ∧
  scene_children (out_context out) =
    scene_children c ++
    match data_collections c !! VCG_Colliders with
    | Some _ => []
    | None => [VCG_Colliders]
    end ∧
  scene_objects (out_context out) = scene_objects c.
Proof.
  intros Ha Ht Hg out. unfold out.
  assert (Hl := ensure_collection_lookup (started c)).
  assert (Hne := ensure_collection_lookup_ne (started c)).
  assert (Hch := ensure_collection_children (started c)).
  change (data_collections (started c)) with (data_collections c) in Hl, Hne, Hch.
  change (scene_children (started c)) with (scene_children c) in Hch.
  split_and!; [| | | apply execute_frame];
    destruct (execute_mesh_context c obj g0 Ha Ht Hg)
      as [_ [(_ & _ & _ & ->) | (_ & _ & ->)]]; done.
Qed.

Lemma execute_ensures_collection_witness :
  data_collections (out_context (execute Scenes.cube_scene)) !! VCG_Colliders =
    Some [] ∧
  scene_children (out_context (execute Scenes.cube_scene)) = [VCG_Colliders].
Proof.
  destruct (execute_ensures_collection Scenes.cube_scene Scenes.cube
              Scenes.cube_grid) as (Hl & _ & Hc & _).
  - reflexivity.
  - reflexivity.
  - reflexivity.
  - split; [exact Hl | exact Hc].
Defined.

(** X14. A run that finished can be repeated: the second run, on the state
    the first one left, finishes too, builds the same grid, creates nothing,
    reuses the collection the first run looked up or made (no second
    collection, no second link under the scene) and adds the same two
    reports. *)
Theorem execute_twice_when_finished {numeric : Numeric} {blender : Blender}
    (c : Context) :
  out_result (execute c) = inr "FINISHED" →
  let out1 := execute c in
  let out2 := execute (out_context out1) in
  out_result out2 = inr "FINISHED" ∧
  out_voxel_grid out2 = out_voxel_grid out1 ∧
  created_objects (out_context out1) out2 = [] ∧
  data_objects (out_context out2) = data_objects c ∧
  data_collections (out_context out2) = data_collections (out_context out1) ∧
  scene_children (out_context out2) = scene_children (out_context out1) ∧
  reports (out_context out2) =
    reports (out_context out1) ++
    [("INFO", "Starting voxel-based primitive fitting...");
     ("INFO", "Voxel primitives placed.")].
Proof.
  intros Hfin out1 out2. unfold out2, out1.
  destruct (active_obj c) as [obj|] eqn:Ha;
    [|rewrite (execute_cancelled c) in Hfin by (by left); done].
  destruct (decide (type obj = "MESH")) as [Ht|Ht];
    [|rewrite (execute_cancelled c) in Hfin by (right; eauto); done].
  destruct (fresh_grid obj (VCG_Props.voxel_size (vcg_props c))) as [e|g0] eqn:Hg;
    [rewrite (execute_no_grid c obj e Ha Ht Hg) in Hfin; done|].
  destruct (execute_mesh_context c obj g0 Ha Ht Hg)
    as [Hgrid [(Hr & _) | (_ & Hcond & E1)]]; [congruence|].
  set (c1 := out_context (execute c)) in *.
  destruct (ensure_collection_fields (started c))
    as (Hd0 & _ & Hr0 & Ha0 & _ & Hp0 & _).
  assert (Hd1 : data_objects c1 = data_objects c) by (by rewrite E1).
  assert (Hp1 : vcg_props c1 = vcg_props c) by (by rewrite E1).
  assert (Ha1 : active_obj c1 = Some obj).
  { unfold active_obj. rewrite E1.
    cbn [active_object data_objects report set_reports].
    rewrite Hd0, Ha0. exact Ha. }
  assert (Hg1 : fresh_grid obj (VCG_Props.voxel_size (vcg_props c1)) = inr g0)
    by (by rewrite Hp1).
  assert (Hpresent : ensure_collection (started c1) = started c1).
  { apply (ensure_collection_present _
             (default [] (data_collections c !! VCG_Colliders))).
    change (data_collections (started c1)) with (data_collections c1).
    rewrite E1. cbn [data_collections report set_reports].
    apply (ensure_collection_lookup (started c)). }
  pose proof (execute_finishes c1 obj g0 Ha1 Ht Hg1 Hcond) as E2.
  rewrite Hpresent in E2.
  split_and!.
  - by rewrite E2.
  - by rewrite E2, Hgrid.
  - apply created_objects_none.
  - by rewrite E2.
  - by rewrite E2.
  - by rewrite E2.
  - rewrite E2. cbn [out_context report set_reports reports started mode_set set_mode].
    by rewrite <- app_assoc.
Qed.

Lemma execute_twice_when_finished_witness :
  out_result (execute (out_context (execute Scenes.plane_scene))) =
    inr "FINISHED" ∧
  data_collections
    (out_context (execute (out_context (execute Scenes.plane_scene)))) =
  data_collections (out_context (execute Scenes.plane_scene)).
Proof.
  destruct (execute_twice_when_finished Scenes.plane_scene)
    as (Hr & _ & _ & _ & Hc & _).
  - reflexivity.
  - split; [exact Hr | exact Hc].
Defined.

(** X19. What decides how a run on a mesh object ends, once the grid is
    built: it finishes iff the mesh has no edge or the grid has no voxel (a
    bounding box without extent along an axis), and it is left by
    [AttributeError] iff the mesh has an edge and the grid a voxel. *)
Theorem execute_ends_by_edges_and_voxels {numeric : Numeric} {blender : Blender}
    (c : Context) obj g0 :
  active_obj c = Some obj → type obj = "MESH" →
  fresh_grid obj (VCG_Props.voxel_size (vcg_props c)) = inr g0 →
  (out_result (execute c) = inr "FINISHED" ↔
   world_edges obj = [] ∨ shape_cells (grid_size g0) = 0%nat) ∧
  (out_result (execute c) = inl AttributeError ↔
   world_edges obj ≠ [] ∧ (0 < shape_cells (grid_size g0))%nat).
Proof.
  intros Ha Ht Hg.
  destruct (VoxelGrid_init_spec _ _ _ _ Hg) as (_ & _ & _ & Hz).
  pose proof (iter_empty_all_false g0 Hz) as Hi.
  pose proof (ndindex_nil (grid_size g0)) as Hn. rewrite <- Hi in Hn.
  destruct (execute_mesh_context c obj g0 Ha Ht Hg)
    as [_ [(Hr & He & Hv & _) | (Hr & Hcond & _)]]; rewrite Hr.
  - split.
    + split; [done|]. intros [?|?]; [done|]. by destruct Hv; apply Hn.
    + split; [|done]. intros _. split; [done|].
      destruct (shape_cells (grid_size g0)); [|lia]. by destruct Hv; apply Hn.
  - split.
    + split; [|done]. intros _. destruct Hcond as [?|?]; [by left|].
      right. by apply Hn.
    + split; [done|]. intros [He Hv]. destruct Hcond as [?|Hc]; [done|].
      apply Hn in Hc. lia.
Qed.

Lemma execute_ends_by_edges_and_voxels_witness :
  out_result (execute Scenes.plane_scene) = inr "FINISHED" ∧
  out_result (execute Scenes.cube_scene) = inl AttributeError.
Proof.
  split.
  - apply (execute_ends_by_edges_and_voxels Scenes.plane_scene Scenes.plane
             Scenes.plane_grid); [reflexivity | reflexivity | reflexivity |].
    right. reflexivity.
  - apply (execute_ends_by_edges_and_voxels Scenes.cube_scene Scenes.cube
             Scenes.cube_grid); [reflexivity | reflexivity | reflexivity |].
    split; [discriminate | change (0 < 8)%nat; lia].
Defined.

(** * Registration *)

Lemma filter_ne_absent (l : list string) (cls : string) :
  cls ∉ l → filter (λ c, c ≠ cls) l = l.
Proof.
  induction l as [|a l IH]; intros Hn; [done|].
  apply not_elem_of_cons in Hn as [Hne Hn].
  rewrite filter_cons_True by done. f_equal. by apply IH.
Qed.

Lemma filter_ne_snoc (l : list string) (cls : string) :
  cls ∉ l → filter (λ c, c ≠ cls) (l ++ [cls]) = l.
Proof.
  intros Hn. rewrite filter_app, filter_ne_absent by done.
  rewrite filter_cons_False by (intros Hne; by apply Hne).
  by rewrite filter_nil, app_nil_r.
Qed.

Lemma reverse_classes :
  reverse classes = ["VCG_PT_Panel"; "VCG_OT_Generate"; "VCG_Props"].
Proof. reflexivity. Qed.

(** Membership of a literal class name in a list built from literals. *)
Ltac names :=
  rewrite ?elem_of_app, ?elem_of_cons, ?elem_of_nil;
  intuition (discriminate || congruence).

(** X17. On a host where none of the three classes is registered,
    [register] registers them in the order of [classes] and defines
    [Scene.vcg_props] without raising, and [unregister] then undoes it
    without raising: the registry is exactly what it was (provided the
    attribute was not defined before). *)
Theorem unregister_undoes_register r :
  (∀ cls, cls ∈ classes → cls ∉ registered r) →
  scene_has_vcg_props r = false →
  register r = (mkRegistry (registered r ++ classes) true, None) ∧
  unregister (mkRegistry (registered r ++ classes) true) = (r, None).
Proof.
  intros Hfree Hattr. destruct r as [l attr]. simpl in *. subst attr.
  assert (H1 : "VCG_Props" ∉ l) by (apply Hfree; unfold classes; names).
  assert (H2 : "VCG_OT_Generate" ∉ l) by (apply Hfree; unfold classes; names).
  assert (H3 : "VCG_PT_Panel" ∉ l) by (apply Hfree; unfold classes; names).
  split.
  - unfold register, classes, for_each, register_class. simpl.
    rewrite decide_False by done. simpl.
    rewrite decide_False by names. simpl.
    rewrite decide_False by names. simpl.
    by rewrite <- !app_assoc.
  - unfold unregister. rewrite reverse_classes. unfold classes.
    unfold for_each, unregister_class. simpl.
    rewrite decide_True by names. simpl.
    replace (l ++ ["VCG_Props"; "VCG_OT_Generate"; "VCG_PT_Panel"])
      with ((l ++ ["VCG_Props"; "VCG_OT_Generate"]) ++ ["VCG_PT_Panel"])
      by (by rewrite <- app_assoc).
    rewrite filter_ne_snoc by names.
    rewrite decide_True by names. simpl.
    replace (l ++ ["VCG_Props"; "VCG_OT_Generate"])
      with ((l ++ ["VCG_Props"]) ++ ["VCG_OT_Generate"])
      by (by rewrite <- app_assoc).
    rewrite filter_ne_snoc by names.
    rewrite decide_True by names. simpl.
    by rewrite filter_ne_snoc.
Qed.

Lemma unregister_undoes_register_witness :
  register (mkRegistry ["OtherAddon"] false) =
    (mkRegistry ["OtherAddon"; "VCG_Props"; "VCG_OT_Generate"; "VCG_PT_Panel"]
                true, None) ∧
  unregister
    (mkRegistry ["OtherAddon"; "VCG_Props"; "VCG_OT_Generate"; "VCG_PT_Panel"]
                true) =
    (mkRegistry ["OtherAddon"] false, None).
Proof.
  apply (unregister_undoes_register (mkRegistry ["OtherAddon"] false));
    [|reflexivity].
  intros cls Hc. vm_compute in Hc.
  intros Hin. apply list_elem_of_singleton in Hin. subst cls.
  repeat (apply elem_of_cons in Hc as [Hc|Hc]; [discriminate|]).
  by apply elem_of_nil in Hc.
Defined.

(** X18. [register] and [unregister] are not atomic and not repeatable.
    Registering when [VCG_Props] is registered raises at once and changes
    nothing.  Registering when [VCG_Props] is free but [VCG_OT_Generate] is
    taken raises after [VCG_Props] has been registered, which stays
    registered, and [Scene.vcg_props] is not defined.  Unregistering when
    [VCG_PT_Panel] is not registered raises at once and changes nothing,
    whatever else is registered. *)
Theorem registration_failures r :
  ("VCG_Props" ∈ registered r →
     register r = (r, Some (AlreadyRegistered "VCG_Props"))) ∧
  ("VCG_Props" ∉ registered r → "VCG_OT_Generate" ∈ registered r →
     register r =
     (mkRegistry (registered r ++ ["VCG_Props"]) (scene_has_vcg_props r),
      Some (AlreadyRegistered "VCG_OT_Generate"))) ∧
  ("VCG_PT_Panel" ∉ registered r →
     unregister r = (r, Some (NotRegistered "VCG_PT_Panel"))).
Proof.
  split_and!.
  - intros Hin. unfold register, classes, for_each, register_class.
    by rewrite decide_True.
  - intros Hout Hin. unfold register, classes, for_each, register_class.
    rewrite decide_False by done. simpl.
    rewrite decide_True by names. done.
  - intros Hout. unfold unregister. rewrite reverse_classes.
    unfold for_each, unregister_class. by rewrite decide_False.
Qed.

Lemma registration_failures_witness :
  register (mkRegistry ["VCG_Props"; "VCG_OT_Generate"; "VCG_PT_Panel"] true) =
    (mkRegistry ["VCG_Props"; "VCG_OT_Generate"; "VCG_PT_Panel"] true,
     Some (AlreadyRegistered "VCG_Props")) ∧
  register (mkRegistry ["VCG_OT_Generate"] false) =
    (mkRegistry ["VCG_OT_Generate"; "VCG_Props"] false,
     Some (AlreadyRegistered "VCG_OT_Generate")) ∧
  unregister (mkRegistry [] false) =
    (mkRegistry [] false, Some (NotRegistered "VCG_PT_Panel")).
Proof.
  split_and!.
  - apply (registration_failures
             (mkRegistry ["VCG_Props"; "VCG_OT_Generate"; "VCG_PT_Panel"] true)).
    vm_compute. left.
  - apply (registration_failures (mkRegistry ["VCG_OT_Generate"] false)).
    + intros Hin. apply list_elem_of_singleton in Hin. discriminate.
    + vm_compute. left.
  - apply (registration_failures (mkRegistry [] false)).
    intros Hin. by apply elem_of_nil in Hin.
Defined.
